(** * Text-processing pipeline: the Lambda handler and its analysis function

    A shallow embedding of [lambda/text-processor] (the second module of
    [src/lib/text-processing-pipeline-stack.ts]): the request handler
    [handler] and the pure function [analyzeText], with the JavaScript
    string operations they call.

    JavaScript strings are sequences of UTF-16 code units; a code unit is an
    [N].  [String.prototype.trim] and the regular-expression class [\s]
    use the same set of code units (ECMAScript WhiteSpace and
    LineTerminator), all of them in the Basic Multilingual Plane, so working
    on code units is exact. *)

From Stdlib Require Import ZArith NArith List Bool Lia Zify.
From Stdlib Require Import Strings.String Strings.Ascii Numbers.DecimalString.
From Stdlib Require DecimalZ DecimalPos.
From stdpp Require Import gmap.

Import ListNotations.
Local Open Scope N_scope.

(* ===================================================================== *)
(** ** JavaScript strings *)
(* ===================================================================== *)

Module JS.

Definition jsstring : Type := list N.

(** A string literal of the source (ASCII only) as code units. *)
Definition lit (s : string) : jsstring :=
  List.map (fun a => N.of_nat (nat_of_ascii a)) (list_ascii_of_string s).

Definition TAB : N := 9.
Definition LF : N := 10.
Definition CR : N := 13.
Definition SPACE : N := 32.

(** ECMAScript WhiteSpace and LineTerminator: what [trim] strips and what
    [\s] matches. *)
Definition isWhiteSpace (c : N) : bool :=
  (c =? 9) || (c =? 10) || (c =? 11) || (c =? 12) || (c =? 13) || (c =? 32)
  || (c =? 160) || (c =? 5760)
  || ((8192 <=? c) && (c <=? 8202))
  || (c =? 8232) || (c =? 8233) || (c =? 8239) || (c =? 8287)
  || (c =? 12288) || (c =? 65279).

(** [x.length] of a string, an array or a buffer: a JavaScript number. *)
Definition jslength {A : Type} (x : list A) : Z := Z.of_nat (length x).

(** [String.prototype.trimStart], [trimEnd] and [trim]. *)
Fixpoint trimStart (s : jsstring) : jsstring :=
  match s with
  | [] => []
  | c :: s' => if isWhiteSpace c then trimStart s' else s
  end.

Definition trimEnd (s : jsstring) : jsstring :=
  List.rev (trimStart (List.rev s)).

Definition trim (s : jsstring) : jsstring := trimEnd (trimStart s).

(** [s.replace(/\r\n/g, '\n')]: the matches are found left to right and do
    not overlap. *)
Fixpoint replace_crlf (s : jsstring) : jsstring :=
  match s with
  | [] => []
  | c :: s' =>
      if c =? CR then
        match s' with
        | d :: s'' => if d =? LF then LF :: replace_crlf s''
                      else c :: replace_crlf s'
        | [] => [c]
        end
      else c :: replace_crlf s'
  end.

(** [s.replace(/\r/g, '\n')]. *)
Definition replace_cr (s : jsstring) : jsstring :=
  List.map (fun c => if c =? CR then LF else c) s.

(** Prepend a code unit to the first segment of a split under
    construction. *)
Definition cons_first (c : N) (segs : list jsstring) : list jsstring :=
  match segs with
  | seg :: rest => (c :: seg) :: rest
  | [] => [[c]]
  end.

(** [s.split('\n')]: the segments between the line feeds; the empty string
    gives one empty segment. *)
Fixpoint split_lf (s : jsstring) : list jsstring :=
  match s with
  | [] => [[]]
  | c :: s' => if c =? LF then [] :: split_lf s' else cons_first c (split_lf s')
  end.

(** [s.split(/\s+/)]: the separator matches a maximal run of white space, so
    a run closes the current segment once; [inrun] says that the code unit
    before was white space.  A string that starts or ends with white space
    gets an empty first or last segment, and the empty string gives one
    empty segment ([/\s+/] does not match the empty string). *)
Fixpoint split_ws_from (inrun : bool) (s : jsstring) : list jsstring :=
  match s with
  | [] => [[]]
  | c :: s' =>
      if isWhiteSpace c then
        if inrun then split_ws_from true s' else [] :: split_ws_from true s'
      else cons_first c (split_ws_from false s')
  end.

Definition split_ws (s : jsstring) : list jsstring := split_ws_from false s.

(** The callback of both filters: [x => x.trim().length > 0]. *)
Definition nonblank (x : jsstring) : bool := (0 <? jslength (trim x))%Z.

(** [s.startsWith(p)] and [s.includes(p)]. *)
Fixpoint startsWith (p s : jsstring) : bool :=
  match p, s with
  | [], _ => true
  | _ :: _, [] => false
  | a :: p', b :: s' => (a =? b) && startsWith p' s'
  end.

Fixpoint includes (p s : jsstring) : bool :=
  startsWith p s
  || match s with
     | [] => false
     | _ :: s' => includes p s'
     end.

(** [s.substring(0, n)] and string concatenation are [take n s] and
    [++]. *)
Definition substring0 (n : nat) (s : jsstring) : jsstring := take n s.

(** [String(n)] and [n.toString()] on an integer: its decimal digits. *)
Definition toString (n : Z) : jsstring :=
  lit (NilZero.string_of_int (Z.to_int n)).

(** [a || b] on values that are a string or [undefined]/[null]: [a] when it
    is truthy (a non-empty string), else [b]. *)
Definition truthy (a : option jsstring) : bool :=
  match a with
  | Some (_ :: _) => true
  | _ => false
  end.

Definition or_else (a b : option jsstring) : option jsstring :=
  if truthy a then a else b.

End JS.

Import JS.

(* ===================================================================== *)
(** ** analyzeText *)
(* ===================================================================== *)

Record Analysis : Type := mkAnalysis {
  wordCount : Z;
  lineCount : Z;
  normalizedText : jsstring
}.

(** [rawText.replace(/\r\n/g, '\n').replace(/\r/g, '\n').trim()] *)
Definition normalize (rawText : jsstring) : jsstring :=
  trim (replace_cr (replace_crlf rawText)).

Definition countWords (text : jsstring) : Z :=
  jslength (List.filter nonblank (split_ws text)).

Definition countLines (text : jsstring) : Z :=
  jslength (List.filter nonblank (split_lf text)).

Definition analyzeText (rawText : jsstring) : Analysis :=
  let normalizedText := normalize rawText in
  let wordCount := countWords normalizedText in
  let lineCount := countLines normalizedText in
  mkAnalysis wordCount lineCount normalizedText.

(* ===================================================================== *)
(** ** The Node.js runtime the handler calls *)
(* ===================================================================== *)

(** A buffer is a sequence of bytes. *)
Definition Buffer : Type := list N.

(** The library functions of the runtime whose results the handler only
    measures and passes on: the two decodings of [Buffer.from], the decoding
    of [buf.toString('utf-8')] and [String.prototype.toLowerCase].  The
    handler is stated over any implementation of them; [node] below is a
    concrete one. *)
Class Runtime : Type := {
  Buffer_from_base64 : jsstring -> Buffer;
  Buffer_from_utf8 : jsstring -> Buffer;
  Buffer_toString_utf8 : Buffer -> jsstring;
  toLowerCase : jsstring -> jsstring
}.

(* ===================================================================== *)
(** ** Events, responses, stored items and the world *)
(* ===================================================================== *)

(** [APIGatewayProxyEvent], the fields the handler reads.  [body] is
    [string | null]; a header that is absent reads as [undefined]. *)
Record APIGatewayProxyEvent : Type := mkEvent {
  body : option jsstring;
  headers : gmap jsstring jsstring;
  isBase64Encoded : bool
}.

Record Context : Type := mkContext {
  awsRequestId : jsstring
}.

(** The object a response body is the [JSON.stringify] of: its properties in
    order. *)
Inductive jsvalue : Type :=
| VStr (s : jsstring)
| VNum (n : Z).

Definition jsobject : Type := list (string * jsvalue).

(** [APIGatewayProxyResult]; [payload] is the object whose serialisation is
    the response's [body]. *)
Record APIGatewayProxyResult : Type := mkResult {
  statusCode : Z;
  payload : jsobject
}.

(** The item written to the table.  [processedAt] is the instant (in
    milliseconds since the epoch) whose [toISOString()] is stored. *)
Module Item.
Record t : Type := mk {
  id : jsstring;
  textContent : jsstring;
  wordCount : Z;
  lineCount : Z;
  processedAt : Z
}.
End Item.

(** What [logResponse] and [logError] print, as one structured entry per
    call. *)
Inductive LogEntry : Type :=
| ResponseLog (timestamp : Z) (requestId : jsstring)
    (response : APIGatewayProxyResult)
| ErrorLog (timestamp : Z) (requestId : jsstring) (message : jsstring)
    (requestHeaders : gmap jsstring jsstring) (bodyShort : jsstring).

(** The world around one invocation: the DynamoDB table keyed by [id], the
    console, the readings the wall clock will give, and the error the store
    rejects a put with, if it does. *)
Record World : Type := mkWorld {
  table : gmap jsstring Item.t;
  console : list LogEntry;
  clock : list Z;
  putFailure : option jsstring
}.

(** Computations of the handler: they read and change the world and either
    return a value or throw an error, kept as its message. *)
Definition M (A : Type) : Type := World -> (jsstring + A) * World.

Definition ret {A : Type} (a : A) : M A := fun w => (inr a, w).

Definition bind {A B : Type} (m : M A) (k : A -> M B) : M B :=
  fun w =>
    match m w with
    | (inl e, w') => (inl e, w')
    | (inr a, w') => k a w'
    end.

Definition tryCatch {A : Type} (m : M A) (h : jsstring -> M A) : M A :=
  fun w =>
    match m w with
    | (inl e, w') => h e w'
    | (inr a, w') => (inr a, w')
    end.

Notation "x <- m ;; k" := (bind m (fun x => k))
  (at level 100, m at next level, right associativity).
Notation "m ;;; k" := (bind m (fun _ => k))
  (at level 100, right associativity).

(** [Date.now()] and [new Date()]: the next reading of the clock; a clock
    with no reading left reads 0. *)
Definition now : M Z :=
  fun w =>
    match clock w with
    | [] => (inr 0%Z, w)
    | t :: ts => (inr t, mkWorld (table w) (console w) ts (putFailure w))
    end.

(** The [i]-th next reading of the clock. *)
Definition reading (i : nat) (w : World) : Z := nth i (clock w) 0%Z.

Definition consoleLog (e : LogEntry) : M unit :=
  fun w => (inr tt, mkWorld (table w) (console w ++ [e]) (clock w) (putFailure w)).

(** [dynamoDb.put({TableName, Item}).promise()], awaited: the item replaces
    what the table holds under its [id], or the call rejects and the table
    is as it was. *)
Definition dynamoDb_put (item : Item.t) : M unit :=
  fun w =>
    match putFailure w with
    | Some e => (inl e, w)
    | None =>
        (inr tt, mkWorld (<[Item.id item := item]> (table w)) (console w)
                   (clock w) (putFailure w))
    end.

(* ===================================================================== *)
(** ** The handler *)
(* ===================================================================== *)

Definition MAX_FILE_SIZE_BYTES : Z := 1 * 1024 * 1024.

Definition logError (message : jsstring) (event : APIGatewayProxyEvent)
    (context : Context) : M unit :=
  t <- now ;;
  consoleLog (ErrorLog t (awsRequestId context) message (headers event)
                (substring0 200 (default [] (or_else (body event) (Some []))))).

Definition logResponse (response : APIGatewayProxyResult)
    (event : APIGatewayProxyEvent) (context : Context) : M unit :=
  t <- now ;;
  consoleLog (ResponseLog t (awsRequestId context) response).

(** The object [{ message }] of a validation failure. *)
Definition messageOnly (message : jsstring) : jsobject :=
  [("message"%string, VStr message)].

(** Every branch builds its response, logs it and returns it. *)
Definition respond (code : Z) (obj : jsobject) (event : APIGatewayProxyEvent)
    (context : Context) : M APIGatewayProxyResult :=
  let response := mkResult code obj in
  logResponse response event context ;;;
  ret response.

Definition sizeMessage (n : Z) : jsstring :=
  lit "File size exceeds the 1MB limit. Your file size: " ++ toString n
  ++ lit " bytes.".

(** The [textContent] that is stored (the conditional of lines 193-195):
    the normalized text, cut to 1000 code units and marked when longer. *)
Definition textContentOf (normalizedText : jsstring) : jsstring :=
  if (jslength normalizedText >? 1000)%Z
  then substring0 1000 normalizedText ++ lit "..."
  else normalizedText.

(** The object of the success response. *)
Definition successBody (processingId : jsstring) (wordCount lineCount : Z)
    : jsobject :=
  [("message"%string, VStr (lit "Text processed successfully"));
   ("processingId"%string, VStr processingId);
   ("wordCount"%string, VNum wordCount);
   ("lineCount"%string, VNum lineCount)].

(** The object of the response to an unexpected error. *)
Definition errorBody (errMessage requestId : jsstring) : jsobject :=
  [("message"%string, VStr (lit "Error processing text"));
   ("error"%string, VStr errMessage);
   ("requestId"%string, VStr requestId)].

Section Handler.
Context `{Runtime}.

Definition handler (event : APIGatewayProxyEvent) (context : Context)
    : M APIGatewayProxyResult :=
  tryCatch
    (* 1. Check if a file (body) is uploaded *)
    (match body event with
     | None | Some [] =>
         respond 400 (messageOnly (lit "No file uploaded.")) event context
     | Some eventBody =>
         (* 2. Validate Content-Type header *)
         let contentType :=
           or_else (headers event !! lit "content-type")
                   (headers event !! lit "Content-Type") in
         if negb (truthy contentType)
            || negb (includes (lit "text/plain")
                       (toLowerCase (default [] contentType)))
         then
           respond 400
             (messageOnly
                (lit "Invalid file type. Only text/plain (.txt) files are allowed."))
             event context
         else
           (* 3. Decode file data from base64 or plain text *)
           let fileBuffer :=
             if isBase64Encoded event then Buffer_from_base64 eventBody
             else Buffer_from_utf8 eventBody in
           (* 4. Check file size limits *)
           if (jslength fileBuffer =? 0)%Z then
             respond 400 (messageOnly (lit "Uploaded file is empty."))
               event context
           else if (jslength fileBuffer >? MAX_FILE_SIZE_BYTES)%Z then
             respond 400 (messageOnly (sizeMessage (jslength fileBuffer)))
               event context
           else
             (* 5. Convert buffer to string and check content *)
             let rawText := Buffer_toString_utf8 fileBuffer in
             if (jslength (trim rawText) =? 0)%Z then
               respond 400
                 (messageOnly
                    (lit "Uploaded file contains no meaningful text (only whitespace)."))
                 event context
             else
               (* 6. Analyze text content *)
               let a := analyzeText rawText in
               if (wordCount a =? 0)%Z && (lineCount a =? 0)%Z then
                 respond 400
                   (messageOnly (lit "No text content found after processing."))
                   event context
               else
                 (* 7. Save processed data to DynamoDB *)
                 t <- now ;;
                 let processingId := toString t in
                 processedAt <- now ;;
                 dynamoDb_put
                   (Item.mk processingId (textContentOf (normalizedText a))
                      (wordCount a) (lineCount a) processedAt) ;;;
                 respond 200
                   (successBody processingId (wordCount a) (lineCount a))
                   event context
     end)
    (fun errMessage =>
       let response :=
         mkResult 500 (errorBody errMessage (awsRequestId context)) in
       logError errMessage event context ;;;
       logResponse response event context ;;;
       ret response).

End Handler.

(* ===================================================================== *)
(** ** A concrete runtime *)
(* ===================================================================== *)

Module Node.

Definition isHighSurrogate (c : N) : bool := (0xD800 <=? c) && (c <=? 0xDBFF).
Definition isLowSurrogate (c : N) : bool := (0xDC00 <=? c) && (c <=? 0xDFFF).

Definition REPLACEMENT : list N := [0xEF; 0xBF; 0xBD].

(** [Buffer.from(s, 'utf-8')]: the UTF-8 encoding of the code points of [s];
    a surrogate that is not part of a pair is encoded as U+FFFD. *)
Fixpoint utf8_encode (s : jsstring) : Buffer :=
  match s with
  | [] => []
  | c :: s' =>
      if c <? 0x80 then c :: utf8_encode s'
      else if c <? 0x800 then
        [0xC0 + c / 64; 0x80 + c mod 64] ++ utf8_encode s'
      else if isHighSurrogate c then
        match s' with
        | d :: s'' =>
            if isLowSurrogate d then
              let cp := 0x10000 + (c - 0xD800) * 1024 + (d - 0xDC00) in
              [0xF0 + cp / 262144; 0x80 + (cp / 4096) mod 64;
               0x80 + (cp / 64) mod 64; 0x80 + cp mod 64] ++ utf8_encode s''
            else REPLACEMENT ++ utf8_encode s'
        | [] => REPLACEMENT
        end
      else if isLowSurrogate c then REPLACEMENT ++ utf8_encode s'
      else
        [0xE0 + c / 4096; 0x80 + (c / 64) mod 64; 0x80 + c mod 64]
        ++ utf8_encode s'
  end.

(** The state of the UTF-8 decoder inside a multi-byte sequence. *)
Record Pending : Type := mkPending {
  codePoint : N;
  needed : N;
  lower : N;
  upper : N
}.

(** The code units of a code point. *)
Definition utf16 (cp : N) : jsstring :=
  if cp <? 0x10000 then [cp]
  else [0xD800 + (cp - 0x10000) / 1024; 0xDC00 + (cp - 0x10000) mod 1024].

(** A byte met outside a sequence: what it emits and the sequence it
    opens. *)
Definition lead (b : N) : jsstring * option Pending :=
  if b <=? 0x7F then ([b], None)
  else if (0xC2 <=? b) && (b <=? 0xDF) then
    ([], Some (mkPending (N.land b 0x1F) 1 0x80 0xBF))
  else if (0xE0 <=? b) && (b <=? 0xEF) then
    ([], Some (mkPending (N.land b 0xF) 2
                 (if b =? 0xE0 then 0xA0 else 0x80)
                 (if b =? 0xED then 0x9F else 0xBF)))
  else if (0xF0 <=? b) && (b <=? 0xF4) then
    ([], Some (mkPending (N.land b 0x7) 3
                 (if b =? 0xF0 then 0x90 else 0x80)
                 (if b =? 0xF4 then 0x8F else 0xBF)))
  else ([0xFFFD], None).

(** [buf.toString('utf-8')]: every maximal ill-formed part of the input
    decodes to one U+FFFD; a byte that breaks a sequence is read again as
    the start of the next one. *)
Fixpoint utf8_decode_from (st : option Pending) (bs : Buffer) : jsstring :=
  match bs with
  | [] => match st with
          | Some _ => [0xFFFD]
          | None => []
          end
  | b :: bs' =>
      match st with
      | None => fst (lead b) ++ utf8_decode_from (snd (lead b)) bs'
      | Some p =>
          if (lower p <=? b) && (b <=? upper p) then
            let cp := codePoint p * 64 + N.land b 0x3F in
            if needed p =? 1 then utf16 cp ++ utf8_decode_from None bs'
            else utf8_decode_from
                   (Some (mkPending cp (needed p - 1) 0x80 0xBF)) bs'
          else
            0xFFFD :: fst (lead b) ++ utf8_decode_from (snd (lead b)) bs'
      end
  end.

Definition utf8_decode (bs : Buffer) : jsstring := utf8_decode_from None bs.

(** The value of a base64 digit, in the standard and the URL-safe
    alphabet. *)
Definition unbase64 (c : N) : option N :=
  if (65 <=? c) && (c <=? 90) then Some (c - 65)
  else if (97 <=? c) && (c <=? 122) then Some (c - 71)
  else if (48 <=? c) && (c <=? 57) then Some (c + 4)
  else if (c =? 43) || (c =? 45) then Some 62
  else if (c =? 47) || (c =? 95) then Some 63
  else None.

(** The digits of the input up to the first padding character [=]; code
    units that are no digit are skipped. *)
Fixpoint sextets (s : jsstring) : list N :=
  match s with
  | [] => []
  | c :: s' =>
      if c =? 61 then []
      else match unbase64 c with
           | Some v => v :: sextets s'
           | None => sextets s'
           end
  end.

Fixpoint base64_bytes (fuel : nat) (vs : list N) : Buffer :=
  match fuel with
  | O => []
  | S fuel' =>
      match vs with
      | a :: b :: c :: d :: vs' =>
          [a * 4 + b / 16; (b mod 16) * 16 + c / 4; (c mod 4) * 64 + d]
          ++ base64_bytes fuel' vs'
      | [a; b; c] => [a * 4 + b / 16; (b mod 16) * 16 + c / 4]
      | [a; b] => [a * 4 + b / 16]
      | _ => []
      end
  end.

(** [Buffer.from(s, 'base64')]. *)
Definition base64_decode (s : jsstring) : Buffer :=
  base64_bytes (length s) (sextets s).

(** [toLowerCase] on the ASCII letters; other code units are kept. *)
Definition ascii_toLowerCase (s : jsstring) : jsstring :=
  List.map (fun c => if (65 <=? c) && (c <=? 90) then c + 32 else c) s.

End Node.

#[export] Instance node : Runtime := {
  Buffer_from_base64 := Node.base64_decode;
  Buffer_from_utf8 := Node.utf8_encode;
  Buffer_toString_utf8 := Node.utf8_decode;
  toLowerCase := Node.ascii_toLowerCase
}.

(* ===================================================================== *)
(** ** The validation checks as the specification lists them *)
(* ===================================================================== *)

(** The specification's reading of the handler, to compare [handler] with:
    six checks in a fixed order, each with the condition that violates it
    and its message, and the first violated check decides the response. *)
Module SpecValidation.
Section Checks.
Context `{Runtime}.

Inductive Check : Type :=
| MissingPayload
| WrongContentType
| EmptyPayload
| PayloadTooLarge
| WhitespaceOnly
| NoContent.

Definition checksInOrder : list Check :=
  [MissingPayload; WrongContentType; EmptyPayload; PayloadTooLarge;
   WhitespaceOnly; NoContent].

(** The declared content type, the decoded payload and its text. *)
Definition contentTypeOf (event : APIGatewayProxyEvent) : option jsstring :=
  or_else (headers event !! lit "content-type")
          (headers event !! lit "Content-Type").

Definition fileBufferOf (event : APIGatewayProxyEvent) : Buffer :=
  if isBase64Encoded event
  then Buffer_from_base64 (default [] (body event))
  else Buffer_from_utf8 (default [] (body event)).

Definition rawTextOf (event : APIGatewayProxyEvent) : jsstring :=
  Buffer_toString_utf8 (fileBufferOf event).

Definition violated (c : Check) (event : APIGatewayProxyEvent) : bool :=
  match c with
  | MissingPayload => negb (truthy (body event))
  | WrongContentType =>
      negb (truthy (contentTypeOf event)
            && includes (lit "text/plain")
                 (toLowerCase (default [] (contentTypeOf event))))
  | EmptyPayload => (jslength (fileBufferOf event) =? 0)%Z
  | PayloadTooLarge => (MAX_FILE_SIZE_BYTES <? jslength (fileBufferOf event))%Z
  | WhitespaceOnly => forallb isWhiteSpace (rawTextOf event)
  | NoContent =>
      (wordCount (analyzeText (rawTextOf event)) =? 0)%Z
      && (lineCount (analyzeText (rawTextOf event)) =? 0)%Z
  end.

Definition messageOf (c : Check) (event : APIGatewayProxyEvent) : jsstring :=
  match c with
  | MissingPayload => lit "No file uploaded."
  | WrongContentType =>
      lit "Invalid file type. Only text/plain (.txt) files are allowed."
  | EmptyPayload => lit "Uploaded file is empty."
  | PayloadTooLarge => sizeMessage (jslength (fileBufferOf event))
  | WhitespaceOnly =>
      lit "Uploaded file contains no meaningful text (only whitespace)."
  | NoContent => lit "No text content found after processing."
  end.

Definition firstViolation (event : APIGatewayProxyEvent) : option Check :=
  List.find (fun c => violated c event) checksInOrder.

End Checks.
End SpecValidation.

(** A text as its lines, written with one line-ending convention:
    [lines.join(sep)]. *)
Fixpoint join (sep : jsstring) (lines : list jsstring) : jsstring :=
  match lines with
  | [] => []
  | l :: rest =>
      match rest with
      | [] => l
      | _ :: _ => l ++ sep ++ join sep rest
      end
  end.

(** A line holds no line break of any convention. *)
Definition isLine (l : jsstring) : Prop :=
  Forall (fun c => c <> CR /\ c <> LF) l.

(** No code unit of [x] is a carriage return. *)
Definition noCR (x : jsstring) : Prop := Forall (fun c => c <> CR) x.

(** Some code unit of [x] is not white space. *)
Definition hasText (x : jsstring) : bool :=
  existsb (fun c => negb (isWhiteSpace c)) x.

(** The item a valid request stores: its id and time stamp are the first
    two readings of the clock. *)
Definition storedItem `{Runtime} (event : APIGatewayProxyEvent) (w : World)
    : Item.t :=
  let a := analyzeText (SpecValidation.rawTextOf event) in
  Item.mk (toString (reading 0 w)) (textContentOf (normalizedText a))
    (wordCount a) (lineCount a) (reading 1 w).

(* ===================================================================== *)
(** ** Sample requests *)
(* ===================================================================== *)

Module Samples.

Definition textPlain : gmap jsstring jsstring :=
  {[ lit "content-type" := lit "text/plain" ]}.

Definition context0 : Context := mkContext (lit "req-1").

(** An empty table, a clock at 1700000000000 ms that advances by one
    millisecond per reading, and a store that accepts the put. *)
Definition world0 : World :=
  mkWorld ∅ []
    [1700000000000; 1700000000001; 1700000000002; 1700000000003]%Z None.

(** An empty body, declared as plain text. *)
Definition emptyBody : APIGatewayProxyEvent := mkEvent (Some []) textPlain false.

(** Three spaces declared as JSON: the content-type check and the
    white-space check are both violated. *)
Definition blankJson : APIGatewayProxyEvent :=
  mkEvent (Some (lit "   "))
    {[ lit "Content-Type" := lit "application/json" ]} false.

(** 1200 characters: the letter a and 1199 spaces. *)
Definition paddedText : APIGatewayProxyEvent :=
  mkEvent (Some (97 :: repeat SPACE 1199)) textPlain false.

(** 1200 characters: 1200 times the letter a. *)
Definition longText : APIGatewayProxyEvent :=
  mkEvent (Some (repeat 97 1200)) textPlain false.

(** 1,048,577 bytes: as many times the letter a. *)
Definition oversized : APIGatewayProxyEvent :=
  mkEvent (Some (97 :: repeat 97 (N.to_nat 1048576))) textPlain false.

End Samples.

(* ===================================================================== *)
(** ** Counting views and texts with mixed line endings *)
(* ===================================================================== *)

(** The tokens with text, counted where they start: at a code unit that is
    not white space and follows white space or the start of the text
    ([afterSpace]). *)
Fixpoint wordStarts (afterSpace : bool) (s : jsstring) : nat :=
  match s with
  | [] => 0
  | c :: s' =>
      if isWhiteSpace c then wordStarts true s'
      else ((if afterSpace then 1 else 0) + wordStarts false s')%nat
  end.

(** The lines with text, counted at their first code unit that is not white
    space; [fresh] says that the current line has shown none yet. *)
Fixpoint lineStarts (fresh : bool) (s : jsstring) : nat :=
  match s with
  | [] => 0
  | c :: s' =>
      if c =? LF then lineStarts true s'
      else if isWhiteSpace c then lineStarts fresh s'
      else ((if fresh then 1 else 0) + lineStarts false s')%nat
  end.

(** The three line-ending conventions. *)
Inductive LineEnding : Type :=
| CRLF
| LoneCR
| LoneLF.

Definition ending (e : LineEnding) : jsstring :=
  match e with
  | CRLF => [CR; LF]
  | LoneCR => [CR]
  | LoneLF => [LF]
  end.

(** A text as a first line and further lines, each after a line ending of
    its own choice. *)
Fixpoint render (first : jsstring) (rest : list (LineEnding * jsstring))
    : jsstring :=
  match rest with
  | [] => first
  | (e, l) :: rest' => first ++ ending e ++ render l rest'
  end.

(** The number of segments with text. *)
Definition withText (segs : list jsstring) : nat :=
  length (List.filter hasText segs).

(** A string of UTF-16 code units in which every surrogate is part of a
    pair, a high surrogate followed by a low one. *)
Fixpoint wellFormed (s : jsstring) : bool :=
  match s with
  | [] => true
  | c :: s' =>
      if Node.isHighSurrogate c then
        match s' with
        | d :: s'' => Node.isLowSurrogate d && wellFormed s''
        | [] => false
        end
      else negb (Node.isLowSurrogate c) && (c <? 0x10000) && wellFormed s'
  end.

(** Further sample requests and worlds. *)
Module MoreSamples.

(** Three words on two lines, with CRLF line endings and a blank line. *)
Definition helloText : APIGatewayProxyEvent :=
  mkEvent (Some (lit "hello world" ++ [CR; LF; CR; LF] ++ lit "foo"))
    Samples.textPlain false.

(** The content type under a header name in capitals only. *)
Definition capitalHeader : APIGatewayProxyEvent :=
  mkEvent (Some (lit "hello"))
    {[ lit "CONTENT-TYPE" := lit "text/plain" ]} false.

(** Two content types: JSON under the lower-case name, plain text under
    the capitalised one. *)
Definition twoTypes : APIGatewayProxyEvent :=
  mkEvent (Some (lit "hello"))
    (<[ lit "content-type" := lit "application/json" ]>
       {[ lit "Content-Type" := lit "text/plain" ]}) false.

(** Plain text in mixed case with a charset parameter. *)
Definition mixedCase : APIGatewayProxyEvent :=
  mkEvent (Some (lit "hello"))
    {[ lit "Content-Type" := lit "Text/PLAIN; charset=utf-8" ]} false.

(** A body with two-byte, three-byte and four-byte characters:
    h, e acute, space, euro sign, space, and a surrogate pair. *)
Definition accented : APIGatewayProxyEvent :=
  mkEvent (Some [104; 233; 32; 8364; 32; 0xD83D; 0xDE00])
    Samples.textPlain false.

(** A store that rejects the put. *)
Definition rejecting : World :=
  mkWorld ∅ [] [1700000000000; 1700000000001; 1700000000002;
                1700000000003]%Z
    (Some (lit "Requested resource not found")).

(** A clock that reads the same millisecond at the start of two
    invocations in a row. *)
Definition sameMillisecond : World :=
  mkWorld ∅ [] [1700000000000; 1700000000000; 1700000000000;
                1700000000000; 1700000000000; 1700000000000]%Z None.

End MoreSamples.

(* ===================================================================== *)
(** ** Facts about white space and trimming *)
(* ===================================================================== *)

Section Trimming.

Lemma isWhiteSpace_CR : isWhiteSpace CR = true.
Proof. reflexivity. Qed.

Lemma isWhiteSpace_LF : isWhiteSpace LF = true.
Proof. reflexivity. Qed.

Lemma hasText_app (a b : jsstring) : hasText (a ++ b) = hasText a || hasText b.
Proof. apply existsb_app. Qed.

Lemma hasText_rev (x : jsstring) : hasText (List.rev x) = hasText x.
Proof.
  induction x as [|c x IH]; simpl; [reflexivity|].
  rewrite hasText_app, IH. simpl. rewrite orb_false_r. apply orb_comm.
Qed.

Lemma hasText_forallb (x : jsstring) :
  hasText x = negb (forallb isWhiteSpace x).
Proof.
  induction x as [|c x IH]; simpl; [reflexivity|].
  rewrite IH. now destruct (isWhiteSpace c).
Qed.

Lemma trimStart_hasText (x : jsstring) : hasText (trimStart x) = hasText x.
Proof.
  induction x as [|c x IH]; simpl; [reflexivity|].
  destruct (isWhiteSpace c) eqn:E; simpl; [exact IH|].
  now rewrite E.
Qed.

Lemma trimStart_nil (x : jsstring) : trimStart x = [] <-> hasText x = false.
Proof.
  induction x as [|c x IH]; simpl; [tauto|].
  destruct (isWhiteSpace c); simpl; [exact IH|].
  split; discriminate.
Qed.

Lemma trimStart_blank (x : jsstring) : hasText x = false -> trimStart x = [].
Proof. apply trimStart_nil. Qed.

Lemma trimStart_head (c : N) (x : jsstring) :
  isWhiteSpace c = false -> trimStart (c :: x) = c :: x.
Proof. intros E. simpl. now rewrite E. Qed.

Lemma trimStart_cons_inv (x : jsstring) (c : N) (y : jsstring) :
  trimStart x = c :: y -> isWhiteSpace c = false.
Proof.
  induction x as [|d x IH]; simpl; [discriminate|].
  destruct (isWhiteSpace d) eqn:E; [exact IH|].
  intros [= <- _]. exact E.
Qed.

Lemma trimStart_app (a b : jsstring) :
  trimStart (a ++ b) = if hasText a then trimStart a ++ b else trimStart b.
Proof.
  induction a as [|c a IH]; simpl; [reflexivity|].
  destruct (isWhiteSpace c); simpl; [exact IH | reflexivity].
Qed.

Lemma trimStart_idem (x : jsstring) : trimStart (trimStart x) = trimStart x.
Proof.
  induction x as [|c x IH]; simpl; [reflexivity|].
  destruct (isWhiteSpace c) eqn:E; [exact IH|].
  now apply trimStart_head.
Qed.

Lemma trimEnd_hasText (x : jsstring) : hasText (trimEnd x) = hasText x.
Proof.
  unfold trimEnd. now rewrite hasText_rev, trimStart_hasText, hasText_rev.
Qed.

Lemma trimEnd_idem (x : jsstring) : trimEnd (trimEnd x) = trimEnd x.
Proof.
  unfold trimEnd. now rewrite rev_involutive, trimStart_idem.
Qed.

Lemma trimEnd_head (c : N) (x : jsstring) :
  isWhiteSpace c = false -> trimEnd (c :: x) = c :: trimEnd x.
Proof.
  intros E. unfold trimEnd. simpl List.rev at 2.
  rewrite trimStart_app, hasText_rev.
  destruct (hasText x) eqn:Hx.
  - now rewrite rev_app_distr.
  - rewrite (trimStart_head c [] E).
    rewrite (trimStart_blank (List.rev x)); [reflexivity|].
    now rewrite hasText_rev.
Qed.

Lemma trim_hasText (x : jsstring) : hasText (trim x) = hasText x.
Proof. unfold trim. now rewrite trimEnd_hasText, trimStart_hasText. Qed.

Lemma trim_nil (x : jsstring) : trim x = [] <-> hasText x = false.
Proof.
  split; intros E.
  - rewrite <- trim_hasText, E. reflexivity.
  - unfold trim. now rewrite (trimStart_blank x E).
Qed.

Lemma trim_idem (x : jsstring) : trim (trim x) = trim x.
Proof.
  unfold trim. destruct (trimStart x) as [|c y] eqn:E; [reflexivity|].
  assert (Hc := trimStart_cons_inv _ _ _ E).
  rewrite (trimEnd_head c y Hc), (trimStart_head c _ Hc).
  rewrite <- (trimEnd_head c y Hc). apply trimEnd_idem.
Qed.

Lemma nonblank_hasText (x : jsstring) : nonblank x = hasText x.
Proof.
  unfold nonblank, jslength. rewrite <- (trim_hasText x).
  destruct (trim x) as [|c y] eqn:E.
  - reflexivity.
  - assert (Hx : hasText x = true).
    { destruct (hasText x) eqn:Hx; [reflexivity|].
      apply trim_nil in Hx. congruence. }
    rewrite <- E, trim_hasText, Hx, E. simpl length.
    apply Z.ltb_lt. lia.
Qed.

End Trimming.

(* ===================================================================== *)
(** ** Facts about the two replacements *)
(* ===================================================================== *)

Section Replacing.

Lemma replace_crlf_hasText_upto (n : nat) (x : jsstring) :
  (length x <= n)%nat -> hasText (replace_crlf x) = hasText x.
Proof.
  revert x. induction n as [|n IH]; intros [|c x] Hn; simpl in Hn;
    try reflexivity; try lia.
  cbn [replace_crlf].
  destruct (N.eqb_spec c CR) as [->|Hc].
  - destruct x as [|d x]; [reflexivity|].
    destruct (N.eqb_spec d LF) as [->|Hd].
    + cbn [hasText existsb]. fold (hasText (replace_crlf x)) (hasText x).
      rewrite IH by (cbn [length] in *; lia). reflexivity.
    + cbn [hasText existsb]. fold (hasText (replace_crlf (d :: x))).
      rewrite IH by (cbn [length] in *; lia). reflexivity.
  - cbn [hasText existsb]. fold (hasText (replace_crlf x)) (hasText x).
    rewrite IH by lia. reflexivity.
Qed.

Lemma replace_crlf_hasText (x : jsstring) :
  hasText (replace_crlf x) = hasText x.
Proof. now apply (replace_crlf_hasText_upto (length x)). Qed.

Lemma replace_cr_hasText (x : jsstring) : hasText (replace_cr x) = hasText x.
Proof.
  induction x as [|c x IH]; simpl; [reflexivity|].
  fold (replace_cr x) (hasText (replace_cr x)) (hasText x). rewrite IH.
  destruct (N.eqb_spec c CR) as [->|]; reflexivity.
Qed.

Lemma normalize_hasText (x : jsstring) : hasText (normalize x) = hasText x.
Proof.
  unfold normalize.
  now rewrite trim_hasText, replace_cr_hasText, replace_crlf_hasText.
Qed.

Lemma replace_cr_noCR (x : jsstring) : noCR (replace_cr x).
Proof.
  induction x as [|c x IH]; simpl; constructor; [|exact IH].
  destruct (N.eqb_spec c CR); [discriminate | assumption].
Qed.

Lemma replace_cr_id (x : jsstring) : noCR x -> replace_cr x = x.
Proof.
  induction 1 as [|c x Hc _ IH]; simpl; [reflexivity|].
  fold (replace_cr x). rewrite IH.
  now destruct (N.eqb_spec c CR).
Qed.

Lemma replace_crlf_id (x : jsstring) : noCR x -> replace_crlf x = x.
Proof.
  induction 1 as [|c x Hc _ IH]; simpl; [reflexivity|].
  destruct (N.eqb_spec c CR); [contradiction|]. now rewrite IH.
Qed.

(** Without a line feed no carriage return starts a pair. *)
Lemma replace_crlf_noLF (x : jsstring) :
  Forall (fun c => c <> LF) x -> replace_crlf x = x.
Proof.
  induction 1 as [|c x Hc Hx IH]; simpl; [reflexivity|].
  rewrite IH. destruct (c =? CR); [|reflexivity].
  destruct Hx as [|d x Hd _]; [reflexivity|].
  now destruct (N.eqb_spec d LF).
Qed.

Lemma replace_crlf_app (l x : jsstring) :
  noCR l -> replace_crlf (l ++ x) = l ++ replace_crlf x.
Proof.
  induction 1 as [|c l Hc _ IH]; [reflexivity|].
  cbn [app replace_crlf]. destruct (N.eqb_spec c CR); [contradiction|].
  now rewrite IH.
Qed.

Lemma trimStart_noCR (x : jsstring) : noCR x -> noCR (trimStart x).
Proof.
  induction 1 as [|c x Hc Hx IH]; simpl; [constructor|].
  destruct (isWhiteSpace c); [exact IH | now constructor].
Qed.

Lemma rev_noCR (x : jsstring) : noCR x -> noCR (List.rev x).
Proof. unfold noCR. rewrite !List.Forall_forall. intros Hx c Hc. apply Hx. now apply in_rev. Qed.

Lemma trim_noCR (x : jsstring) : noCR x -> noCR (trim x).
Proof.
  intros Hx. unfold trim, trimEnd.
  now apply rev_noCR, trimStart_noCR, rev_noCR, trimStart_noCR.
Qed.

Lemma normalize_noCR (x : jsstring) : noCR (normalize x).
Proof. apply trim_noCR, replace_cr_noCR. Qed.

End Replacing.

(* ===================================================================== *)
(** ** Facts about the two splits *)
(* ===================================================================== *)

Section Splitting.

Local Abbreviation count segs := (length (List.filter hasText segs)).

Lemma filter_nonblank (segs : list jsstring) :
  List.filter nonblank segs = List.filter hasText segs.
Proof. apply List.filter_ext. exact nonblank_hasText. Qed.

Lemma hd_cons_first (c : N) (segs : list jsstring) :
  hd [] (cons_first c segs) = c :: hd [] segs.
Proof. now destruct segs. Qed.

Lemma existsb_cons_first (c : N) (segs : list jsstring) :
  existsb hasText (cons_first c segs)
  = negb (isWhiteSpace c) || existsb hasText segs.
Proof.
  destruct segs as [|seg rest]; simpl.
  - now rewrite !orb_false_r.
  - symmetry. apply orb_assoc.
Qed.

Lemma count_cons_first (c : N) (seg : jsstring) (rest : list jsstring) :
  count (cons_first c (seg :: rest))
  = ((if negb (isWhiteSpace c) || hasText seg then 1 else 0) + count rest)%nat.
Proof.
  cbn [cons_first List.filter]. change (hasText (c :: seg)) with
    (negb (isWhiteSpace c) || hasText seg).
  now destruct (negb (isWhiteSpace c) || hasText seg).
Qed.

Lemma count_positive (segs : list jsstring) :
  existsb hasText segs = true -> (1 <= count segs)%nat.
Proof.
  induction segs as [|seg rest IH]; simpl; [discriminate|].
  destruct (hasText seg); simpl; [lia | exact IH].
Qed.

Lemma split_lf_cons (s : jsstring) :
  exists seg rest, split_lf s = seg :: rest.
Proof.
  induction s as [|c s (seg & rest & E)]; simpl; [now eauto|].
  destruct (c =? LF); [now eauto|]. rewrite E. simpl. eauto.
Qed.

Lemma split_ws_from_cons (inrun : bool) (s : jsstring) :
  exists seg rest, split_ws_from inrun s = seg :: rest.
Proof.
  revert inrun. induction s as [|c s IH]; intros inrun; simpl; [now eauto|].
  destruct (isWhiteSpace c).
  - destruct inrun; [apply IH | now eauto].
  - destruct (IH false) as (seg & rest & E). rewrite E. simpl. eauto.
Qed.

(** White space separates: a segment has text exactly when the string
    has. *)
Lemma split_lf_hasText (s : jsstring) :
  existsb hasText (split_lf s) = hasText s.
Proof.
  induction s as [|c s IH]; [reflexivity|].
  cbn [split_lf]. destruct (N.eqb_spec c LF) as [->|Hc].
  - simpl. exact IH.
  - rewrite existsb_cons_first, IH. reflexivity.
Qed.

Lemma split_ws_from_hasText (inrun : bool) (s : jsstring) :
  existsb hasText (split_ws_from inrun s) = hasText s.
Proof.
  revert inrun. induction s as [|c s IH]; intros inrun; [reflexivity|].
  cbn [split_ws_from hasText existsb]. fold (hasText s).
  destruct (isWhiteSpace c) eqn:Ec; cbn [negb orb].
  - destruct inrun; [apply IH | simpl; apply IH].
  - now rewrite existsb_cons_first, Ec.
Qed.

(** Whether the code unit before was white space changes only an empty
    first segment. *)
Lemma count_split_ws_inrun (s : jsstring) :
  count (split_ws_from true s) = count (split_ws_from false s).
Proof.
  destruct s as [|c s]; [reflexivity|].
  cbn [split_ws_from]. now destruct (isWhiteSpace c).
Qed.

(** The first line holds the first token. *)
Lemma first_token_in_first_line (s : jsstring) :
  hasText (hd [] (split_ws_from false s)) = true ->
  hasText (hd [] (split_lf s)) = true.
Proof.
  destruct s as [|c s]; [discriminate|].
  cbn [split_ws_from split_lf].
  destruct (isWhiteSpace c) eqn:Ec; [discriminate|].
  intros _. destruct (N.eqb_spec c LF) as [->|_]; [discriminate|].
  rewrite hd_cons_first. simpl. now rewrite Ec.
Qed.

Lemma count_lines_le_words (s : jsstring) :
  (count (split_lf s) <= count (split_ws_from false s))%nat.
Proof.
  induction s as [|c s IH]; [simpl; lia|].
  assert (Hfirst := first_token_in_first_line s).
  destruct (split_lf_cons s) as (seg & rest & El).
  destruct (split_ws_from_cons false s) as (tok & toks & Ew).
  cbn [split_lf split_ws_from].
  destruct (isWhiteSpace c) eqn:Ec.
  - change (count ([] :: split_ws_from true s))
      with (count (split_ws_from true s)).
    rewrite count_split_ws_inrun.
    destruct (N.eqb_spec c LF) as [->|_]; [exact IH|].
    rewrite El, count_cons_first, Ec. cbn [negb orb].
    rewrite El in IH. cbn [List.filter] in IH.
    destruct (hasText seg); exact IH.
  - destruct (N.eqb_spec c LF) as [->|_]; [discriminate|].
    rewrite El, Ew, !count_cons_first, Ec. cbn [negb orb].
    rewrite El, Ew in IH, Hfirst. cbn [List.filter hd] in IH, Hfirst.
    destruct (hasText seg), (hasText tok); simpl in *;
      try lia; try (specialize (Hfirst eq_refl); discriminate).
Qed.

End Splitting.

(* ===================================================================== *)
(** ** The analysis function *)
(* ===================================================================== *)

Lemma join_LF_noCR (lines : list jsstring) :
  Forall isLine lines -> noCR (join [LF] lines).
Proof.
  induction 1 as [|l rest Hl Hrest IH]; [constructor|].
  assert (Hn : noCR l).
  { eapply List.Forall_impl; [|exact Hl]. now intros c [Hc _]. }
  cbn [join]. destruct rest as [|l' rest]; [exact Hn|].
  apply List.Forall_app. split; [exact Hn|].
  constructor; [discriminate | exact IH].
Qed.

Lemma join_CR_noLF (lines : list jsstring) :
  Forall isLine lines -> Forall (fun c => c <> LF) (join [CR] lines).
Proof.
  induction 1 as [|l rest Hl Hrest IH]; [constructor|].
  assert (Hn : Forall (fun c => c <> LF) l).
  { eapply List.Forall_impl; [|exact Hl]. now intros c [_ Hc]. }
  cbn [join]. destruct rest as [|l' rest]; [exact Hn|].
  apply List.Forall_app. split; [exact Hn|].
  constructor; [discriminate | exact IH].
Qed.

Lemma replace_cr_join_CR (lines : list jsstring) :
  Forall isLine lines -> replace_cr (join [CR] lines) = join [LF] lines.
Proof.
  induction 1 as [|l rest Hl Hrest IH]; [reflexivity|].
  assert (Hn : noCR l).
  { eapply List.Forall_impl; [|exact Hl]. now intros c [Hc _]. }
  cbn [join]. destruct rest as [|l' rest]; [now apply replace_cr_id|].
  unfold replace_cr in *. rewrite List.map_app. cbn [app List.map].
  rewrite IH. fold (replace_cr l). now rewrite replace_cr_id.
Qed.

Lemma replace_crlf_join_CRLF (lines : list jsstring) :
  Forall isLine lines -> replace_crlf (join [CR; LF] lines) = join [LF] lines.
Proof.
  induction 1 as [|l rest Hl Hrest IH]; [reflexivity|].
  assert (Hn : noCR l).
  { eapply List.Forall_impl; [|exact Hl]. now intros c [Hc _]. }
  cbn [join]. destruct rest as [|l' rest]; [now apply replace_crlf_id|].
  rewrite replace_crlf_app by exact Hn. cbn [app replace_crlf N.eqb].
  change (CR =? CR) with true. change (LF =? LF) with true. cbn iota.
  now rewrite IH.
Qed.

(** Whatever the convention the lines are written with, the text after the
    two replacements is the lines joined by line feeds. *)
Lemma unify_line_endings (sep : jsstring) (lines : list jsstring) :
  sep = [CR; LF] \/ sep = [CR] \/ sep = [LF] ->
  Forall isLine lines ->
  replace_cr (replace_crlf (join sep lines)) = join [LF] lines.
Proof.
  intros [->|[->| ->]] Hlines.
  - rewrite replace_crlf_join_CRLF by exact Hlines.
    now apply replace_cr_id, join_LF_noCR.
  - rewrite replace_crlf_noLF by now apply join_CR_noLF.
    now apply replace_cr_join_CR.
  - rewrite replace_crlf_id by now apply join_LF_noCR.
    now apply replace_cr_id, join_LF_noCR.
Qed.

(** C8: the analysis of ["hello world\n\nfoo"] counts 3 words and 2
    lines. *)
Theorem analyzeText_hello_world_foo :
  let a := analyzeText (lit "hello world" ++ [LF; LF] ++ lit "foo") in
  wordCount a = 3%Z /\ lineCount a = 2%Z.
Proof. split; reflexivity. Qed.

(** C4: normalization is idempotent: normalizing a normalized text gives
    the same text. *)
Theorem normalize_idempotent (s : jsstring) :
  normalize (normalize s) = normalize s.
Proof.
  assert (Hn := normalize_noCR s).
  unfold normalize at 1.
  rewrite (replace_crlf_id _ Hn), (replace_cr_id _ Hn).
  unfold normalize. apply trim_idem.
Qed.

(** A text that has text after normalization has a word and a line with
    text. *)
Lemma counts_positive (rawText : jsstring) :
  hasText rawText = true ->
  (1 <= countWords (normalize rawText))%Z
  /\ (1 <= countLines (normalize rawText))%Z.
Proof.
  intros Htext. rewrite <- normalize_hasText in Htext.
  unfold countWords, countLines, split_ws, jslength.
  rewrite !filter_nonblank. split.
  - apply (inj_le 1), count_positive. now rewrite split_ws_from_hasText.
  - apply (inj_le 1), count_positive. now rewrite split_lf_hasText.
Qed.

(** C1: on a text with at least one code unit that is not white space, the
    analysis counts at least one word and at least one line (whatever the
    size of the text, so in particular up to 1 MiB). *)
Theorem analyzeText_counts_positive (rawText : jsstring) :
  hasText rawText = true ->
  (1 <= wordCount (analyzeText rawText))%Z
  /\ (1 <= lineCount (analyzeText rawText))%Z.
Proof. intros Htext. now apply counts_positive. Qed.

Lemma analyzeText_counts_positive_witness :
  hasText (lit "a") = true
  /\ (1 <= wordCount (analyzeText (lit "a")))%Z
  /\ (1 <= lineCount (analyzeText (lit "a")))%Z.
Proof.
  split; [reflexivity|].
  apply (analyzeText_counts_positive (lit "a")). reflexivity.
Defined.

(** C10: for every input the analysis counts at least as many words as
    lines: a line that is counted holds a token that is counted. *)
Theorem analyzeText_words_ge_lines (rawText : jsstring) :
  (lineCount (analyzeText rawText) <= wordCount (analyzeText rawText))%Z.
Proof.
  unfold analyzeText, countWords, countLines, split_ws, jslength; simpl.
  rewrite !filter_nonblank. apply inj_le, count_lines_le_words.
Qed.

(** C5: a text written with CRLF, with lone CR or with LF between its lines
    has the same analysis: the same line count and the same word count (and
    the same normalized text). *)
Theorem analyzeText_line_ending_invariant (lines : list jsstring) :
  Forall isLine lines ->
  let lf := analyzeText (join [LF] lines) in
  let crlf := analyzeText (join [CR; LF] lines) in
  let cr := analyzeText (join [CR] lines) in
  lineCount crlf = lineCount lf /\ lineCount cr = lineCount lf
  /\ wordCount crlf = wordCount lf /\ wordCount cr = wordCount lf
  /\ normalizedText crlf = normalizedText lf
  /\ normalizedText cr = normalizedText lf.
Proof.
  intros Hlines.
  assert (Ecrlf : normalize (join [CR; LF] lines) = normalize (join [LF] lines)).
  { unfold normalize. now rewrite !unify_line_endings by auto. }
  assert (Ecr : normalize (join [CR] lines) = normalize (join [LF] lines)).
  { unfold normalize. now rewrite !unify_line_endings by auto. }
  unfold analyzeText; simpl. rewrite Ecrlf, Ecr. repeat split; reflexivity.
Qed.

Lemma analyzeText_line_ending_invariant_witness :
  let lines := [lit "one two"; []; lit " three"] in
  Forall isLine lines
  /\ lineCount (analyzeText (join [CR; LF] lines)) = 2%Z
  /\ lineCount (analyzeText (join [CR] lines)) = 2%Z
  /\ lineCount (analyzeText (join [LF] lines)) = 2%Z.
Proof.
  assert (H : Forall isLine [lit "one two"; []; lit " three"]).
  { repeat constructor; discriminate. }
  split; [exact H|].
  destruct (analyzeText_line_ending_invariant _ H) as (E1 & E2 & _).
  cbv zeta in E1, E2. rewrite E1, E2. repeat split; reflexivity.
Defined.

(* ===================================================================== *)
(** ** The models on small inputs *)
(* ===================================================================== *)

Example utf8_ex :
  Node.utf8_decode (Node.utf8_encode [104; 233; 8364; 0xD83D; 0xDE00; 0xDC00])
  = [104; 233; 8364; 0xD83D; 0xDE00; 0xFFFD].
Proof. reflexivity. Qed.

Example base64_ex : Node.base64_decode (lit "aGVsbG8=") = lit "hello".
Proof. reflexivity. Qed.

Example split_ws_ex :
  split_ws (lit " a  b ") = [[]; lit "a"; lit "b"; []].
Proof. reflexivity. Qed.

Example split_ws_empty_ex : split_ws ([]) = [[]].
Proof. reflexivity. Qed.

Example split_lf_ex :
  split_lf (lit "a" ++ [LF; LF] ++ lit "b") = [lit "a"; []; lit "b"].
Proof. reflexivity. Qed.

Example replace_crlf_ex :
  replace_crlf [CR; CR; LF; LF; 97; CR] = [CR; LF; LF; 97; CR].
Proof. reflexivity. Qed.

(* ===================================================================== *)
(** ** The handler against the list of checks *)
(* ===================================================================== *)

Section HandlerFacts.
Context `{Runtime}.
Import SpecValidation.

Lemma tryCatch_respond (code : Z) (obj : jsobject)
    (event : APIGatewayProxyEvent) (context : Context)
    (h : jsstring -> M APIGatewayProxyResult) (w : World) :
  tryCatch (respond code obj event context) h w
  = respond code obj event context w.
Proof.
  unfold tryCatch, respond, logResponse, bind, ret, now, consoleLog.
  destruct (clock w); reflexivity.
Qed.

(** A response that is built and logged is returned, and the table is not
    touched. *)
Lemma respond_result (code : Z) (obj : jsobject)
    (event : APIGatewayProxyEvent) (context : Context) (w : World) :
  fst (respond code obj event context w) = inr (mkResult code obj)
  /\ table (snd (respond code obj event context w)) = table w.
Proof.
  unfold respond, logResponse, bind, ret, now, consoleLog.
  destruct (clock w); split; reflexivity.
Qed.

Lemma fileBuffer_eq (event : APIGatewayProxyEvent) (b : jsstring) :
  body event = Some b ->
  (if isBase64Encoded event then Buffer_from_base64 b else Buffer_from_utf8 b)
  = fileBufferOf event.
Proof. intros Eb. unfold fileBufferOf. now rewrite Eb. Qed.

Lemma contentType_cond (event : APIGatewayProxyEvent) :
  negb (truthy (or_else (headers event !! lit "content-type")
                        (headers event !! lit "Content-Type")))
  || negb (includes (lit "text/plain")
             (toLowerCase
                (default []
                   (or_else (headers event !! lit "content-type")
                            (headers event !! lit "Content-Type")))))
  = violated WrongContentType event.
Proof. cbn [violated]. unfold contentTypeOf. now rewrite negb_andb. Qed.

(** The handler's test [rawText.trim().length === 0] says that the text is
    white space only. *)
Lemma whitespace_cond (x : jsstring) :
  (jslength (trim x) =? 0)%Z = forallb isWhiteSpace x.
Proof.
  assert (Hn := trim_nil x). rewrite hasText_forallb in Hn.
  unfold jslength. destruct (trim x) as [|c y].
  - destruct (forallb isWhiteSpace x); [reflexivity|].
    destruct Hn as [Hn _]. now specialize (Hn eq_refl).
  - destruct (forallb isWhiteSpace x); [|reflexivity].
    destruct Hn as [_ Hn]. now specialize (Hn eq_refl).
Qed.

(** Open the handler on the body and write each of its tests as the
    violation of a check. *)
Ltac handler_checks event Eb :=
  unfold handler;
  destruct (body event) as [[|? ?]|] eqn:Eb;
  [ | rewrite (fileBuffer_eq event _ Eb), contentType_cond, whitespace_cond,
        Z.gtb_ltb;
      fold (rawTextOf event);
      change (jslength (fileBufferOf event) =? 0)%Z
        with (violated EmptyPayload event);
      change (MAX_FILE_SIZE_BYTES <? jslength (fileBufferOf event))%Z
        with (violated PayloadTooLarge event);
      change (forallb isWhiteSpace (rawTextOf event))
        with (violated WhitespaceOnly event);
      change ((wordCount (analyzeText (rawTextOf event)) =? 0)%Z
              && (lineCount (analyzeText (rawTextOf event)) =? 0)%Z)
        with (violated NoContent event)
  | ].

Ltac split_checks Hf :=
  repeat match type of Hf with
    | (if ?v then _ else _) = _ => destruct v
    end.

Lemma handler_firstViolation (event : APIGatewayProxyEvent)
    (context : Context) (w : World) (c : Check) :
  firstViolation event = Some c ->
  handler event context w
  = respond 400 (messageOnly (messageOf c event)) event context w.
Proof.
  unfold firstViolation. cbn [find checksInOrder]. intros Hf.
  assert (V1 : violated MissingPayload event = negb (truthy (body event)))
    by reflexivity.
  handler_checks event Eb; rewrite V1 in Hf; cbn [truthy negb] in Hf;
    try (injection Hf as <-; apply tryCatch_respond).
  split_checks Hf; try discriminate; injection Hf as <-;
    apply tryCatch_respond.
Qed.

Lemma handler_valid_stored (event : APIGatewayProxyEvent)
    (context : Context) (w : World) :
  firstViolation event = None -> putFailure w = None ->
  let item := storedItem event w in
  let response :=
    mkResult 200
      (successBody (Item.id item) (Item.wordCount item) (Item.lineCount item)) in
  handler event context w
  = (inr response,
     mkWorld (<[Item.id item := item]> (table w))
       (console w
        ++ [ResponseLog (reading 2 w) (awsRequestId context) response])
       (drop 3 (clock w)) None).
Proof.
  unfold firstViolation. cbn [find checksInOrder]. intros Hf Hput.
  assert (V1 : violated MissingPayload event = negb (truthy (body event)))
    by reflexivity.
  handler_checks event Eb; rewrite V1 in Hf; cbn [truthy negb] in Hf;
    try discriminate.
  split_checks Hf; try discriminate.
  unfold tryCatch, bind, respond, logResponse, bind, ret, now, consoleLog,
    dynamoDb_put, storedItem, reading.
  destruct w as [tbl con clk pf]. cbn in Hput. subst pf. cbn.
  destruct clk as [|t1 [|t2 [|t3 clk]]]; reflexivity.
Qed.

Lemma handler_valid_failed (event : APIGatewayProxyEvent)
    (context : Context) (w : World) (e : jsstring) :
  firstViolation event = None -> putFailure w = Some e ->
  let response := mkResult 500 (errorBody e (awsRequestId context)) in
  handler event context w
  = (inr response,
     mkWorld (table w)
       (console w
        ++ [ErrorLog (reading 2 w) (awsRequestId context) e (headers event)
              (substring0 200 (default [] (body event)));
            ResponseLog (reading 3 w) (awsRequestId context) response])
       (drop 4 (clock w)) (Some e)).
Proof.
  unfold firstViolation. cbn [find checksInOrder]. intros Hf Hput.
  assert (V1 : violated MissingPayload event = negb (truthy (body event)))
    by reflexivity.
  handler_checks event Eb; rewrite V1 in Hf; cbn [truthy negb] in Hf;
    try discriminate.
  split_checks Hf; try discriminate.
  unfold tryCatch, bind, respond, logError, logResponse, bind, ret, now,
    consoleLog, dynamoDb_put, reading.
  rewrite Eb. destruct w as [tbl con clk pf]. cbn in Hput. subst pf. cbn.
  destruct clk as [|t1 [|t2 [|t3 [|t4 clk]]]]; cbn; rewrite <- ?app_assoc;
    reflexivity.
Qed.

End HandlerFacts.

(* ===================================================================== *)
(** ** The handler: validation, persistence and the stored text *)
(* ===================================================================== *)

Section HandlerClaims.
Context `{Runtime}.
Import SpecValidation.

Lemma find_first {A : Type} (f : A -> bool) (before : list A) (x : A)
    (after : list A) :
  Forall (fun y => f y = false) before -> f x = true ->
  List.find f (before ++ x :: after) = Some x.
Proof.
  induction 1 as [|y before Hy _ IH]; intros Hx; simpl.
  - now rewrite Hx.
  - rewrite Hy. now apply IH.
Qed.

(** The six messages differ within their first twenty code units. *)
Lemma messageOf_distinct (event : APIGatewayProxyEvent) (c c' : Check) :
  c' <> c -> messageOf c' event <> messageOf c event.
Proof.
  intros Hc E. apply (f_equal (take 20)) in E.
  destruct c, c'; try congruence; cbn in E; discriminate.
Qed.

Lemma sizeMessage_not_other (event : APIGatewayProxyEvent) (c : Check)
    (n : Z) :
  c <> PayloadTooLarge -> messageOf c event <> sizeMessage n.
Proof.
  intros Hc E. apply (f_equal (take 20)) in E.
  destruct c; try congruence; cbn in E; discriminate.
Qed.

(** The sixth check is defensive: a text that passes the white-space check
    has a word and a line. *)
Lemma no_content_unreachable (event : APIGatewayProxyEvent) :
  violated WhitespaceOnly event = false -> violated NoContent event = false.
Proof.
  cbn [violated]. intros Hw.
  destruct (counts_positive (rawTextOf event)) as [Hwords _].
  { rewrite hasText_forallb, Hw. reflexivity. }
  apply andb_false_intro1, Z.eqb_neq. cbn [analyzeText wordCount]. lia.
Qed.

(** C2: the handler goes through the checks in the order missing payload,
    content type, empty payload, size limit, white space only, no content:
    when the checks before [c] pass and [c] is violated, whatever the later
    checks would say, the response is HTTP 400 with the message of [c],
    which no other check has, and the table is as it was. *)
Theorem handler_halts_at_first_violation (event : APIGatewayProxyEvent)
    (context : Context) (w : World)
    (before : list Check) (c : Check) (after : list Check) :
  checksInOrder = before ++ c :: after ->
  Forall (fun c' => violated c' event = false) before ->
  violated c event = true ->
  fst (handler event context w)
  = inr (mkResult 400 (messageOnly (messageOf c event)))
  /\ table (snd (handler event context w)) = table w
  /\ (forall c', c' <> c -> messageOf c' event <> messageOf c event).
Proof.
  intros Horder Hbefore Hc.
  assert (Hf : firstViolation event = Some c).
  { unfold firstViolation. rewrite Horder. now apply find_first. }
  rewrite (handler_firstViolation event context w c Hf).
  destruct (respond_result 400 (messageOnly (messageOf c event)) event
              context w) as [Hr Ht].
  split; [exact Hr|]. split; [exact Ht|].
  intros c'. apply messageOf_distinct.
Qed.

(** C3: every invocation returns a response, and either the status is 200
    and the whole item is in the table under its id, the id and the counts
    being those of the response, or the status is not 200 and the table is
    as it was, after a validation failure as after a rejected put. *)
Theorem handler_200_iff_written (event : APIGatewayProxyEvent)
    (context : Context) (w : World) :
  exists response w',
    handler event context w = (inr response, w')
    /\ ((statusCode response = 200%Z
         /\ exists item,
              table w' = <[Item.id item := item]> (table w)
              /\ table w' !! Item.id item = Some item
              /\ payload response
                 = successBody (Item.id item) (Item.wordCount item)
                     (Item.lineCount item))
        \/ (statusCode response <> 200%Z /\ table w' = table w)).
Proof.
  destruct (firstViolation event) as [c|] eqn:Hf.
  - rewrite (handler_firstViolation event context w c Hf).
    destruct (respond_result 400 (messageOnly (messageOf c event)) event
                context w) as [Hr Ht].
    destruct (respond _ _ _ _ w) as [r w']. cbn in Hr, Ht. subst r.
    exists (mkResult 400 (messageOnly (messageOf c event))), w'.
    split; [reflexivity|]. right. split; [discriminate | exact Ht].
  - destruct (putFailure w) as [e|] eqn:Hput.
    + rewrite (handler_valid_failed event context w e Hf Hput).
      eexists _, _. split; [reflexivity|]. right. cbn.
      split; [discriminate | reflexivity].
    + rewrite (handler_valid_stored event context w Hf Hput).
      eexists _, _. split; [reflexivity|]. left. cbn.
      split; [reflexivity|]. exists (storedItem event w).
      split; [reflexivity|]. split; [|reflexivity].
      apply lookup_insert_eq.
Qed.

(** C9: an empty body is a missing payload: whatever the headers and the
    encoding flag, the handler logs and returns HTTP 400 "No file
    uploaded.", which is not the message of the empty-payload check, and
    does nothing else. *)
Theorem handler_empty_body (event : APIGatewayProxyEvent)
    (context : Context) (w : World) :
  body event = Some [] ->
  let response := mkResult 400 (messageOnly (lit "No file uploaded.")) in
  handler event context w
  = (inr response,
     mkWorld (table w)
       (console w
        ++ [ResponseLog (reading 0 w) (awsRequestId context) response])
       (drop 1 (clock w)) (putFailure w))
  /\ firstViolation event = Some MissingPayload
  /\ messageOf MissingPayload event <> messageOf EmptyPayload event.
Proof.
  intros Eb. assert (Hf : firstViolation event = Some MissingPayload).
  { unfold firstViolation. cbn. now rewrite Eb. }
  split; [|split; [exact Hf | now apply messageOf_distinct]].
  rewrite (handler_firstViolation event context w _ Hf).
  unfold respond, logResponse, bind, ret, now, consoleLog, reading.
  destruct w as [tbl con [|t clk] pf]; reflexivity.
Qed.

(** C7: for a request whose payload is decoded (a body is present and the
    content type is accepted), a decoded size above 1,048,576 bytes gives
    HTTP 400 with the message that carries that size in decimal, and the
    table is as it was; at 1,048,577 bytes the message reads "... Your file
    size: 1048577 bytes."; at exactly 1,048,576 bytes the size check is not
    the one that fails and the response is not a size message. *)
Theorem handler_size_limit (event : APIGatewayProxyEvent)
    (context : Context) (w : World) :
  violated MissingPayload event = false ->
  violated WrongContentType event = false ->
  let size := jslength (fileBufferOf event) in
  ((MAX_FILE_SIZE_BYTES < size)%Z ->
   fst (handler event context w)
   = inr (mkResult 400 (messageOnly (sizeMessage size)))
   /\ table (snd (handler event context w)) = table w)
  /\ (size = 1048577%Z ->
      fst (handler event context w)
      = inr (mkResult 400
               (messageOnly
                  (lit "File size exceeds the 1MB limit. Your file size: 1048577 bytes."))))
  /\ (size = 1048576%Z ->
      firstViolation event <> Some PayloadTooLarge
      /\ forall n : Z,
           fst (handler event context w)
           <> inr (mkResult 400 (messageOnly (sizeMessage n)))).
Proof.
  intros V1 V2 size.
  assert (Hlarge : (MAX_FILE_SIZE_BYTES < size)%Z ->
            fst (handler event context w)
            = inr (mkResult 400 (messageOnly (sizeMessage size)))
            /\ table (snd (handler event context w)) = table w).
  { intros Hsize.
    assert (Hf : firstViolation event = Some PayloadTooLarge).
    { apply (find_first _ [MissingPayload; WrongContentType; EmptyPayload]).
      - repeat constructor; try assumption.
        cbn [violated]. fold size. apply Z.eqb_neq.
        unfold MAX_FILE_SIZE_BYTES in Hsize. lia.
      - cbn [violated]. now apply Z.ltb_lt. }
    rewrite (handler_firstViolation event context w _ Hf).
    apply respond_result. }
  split; [exact Hlarge|]. split.
  - intros Esize. destruct Hlarge as [Hr _].
    { rewrite Esize. reflexivity. }
    rewrite Hr, Esize. reflexivity.
  - intros Esize.
    assert (V3 : violated EmptyPayload event = false).
    { cbn [violated]. fold size. now rewrite Esize. }
    assert (V4 : violated PayloadTooLarge event = false).
    { cbn [violated]. fold size. now rewrite Esize. }
    assert (Hf : firstViolation event <> Some PayloadTooLarge).
    { unfold firstViolation. cbn [find checksInOrder].
      rewrite V1, V2, V3, V4.
      destruct (violated WhitespaceOnly event); [discriminate|].
      destruct (violated NoContent event); discriminate. }
    split; [exact Hf|]. intros n.
    destruct (firstViolation event) as [c|] eqn:Ef.
    + rewrite (handler_firstViolation event context w c Ef).
      destruct (respond_result 400 (messageOnly (messageOf c event)) event
                  context w) as [-> _].
      intros [= E]. revert E. apply sizeMessage_not_other. congruence.
    + destruct (putFailure w) as [e|] eqn:Hput.
      * rewrite (handler_valid_failed event context w e Ef Hput).
        discriminate.
      * rewrite (handler_valid_stored event context w Ef Hput).
        discriminate.
Qed.

(** C6, as amended: a request that passes validation and whose normalized
    text is longer than 1000 code units is not rejected: the response is
    HTTP 200 and the stored [textContent] is the first 1000 code units of
    the normalized text followed by the three-character marker, 1003 code
    units in all. *)
Theorem stored_text_truncated (event : APIGatewayProxyEvent)
    (context : Context) (w : World) :
  firstViolation event = None -> putFailure w = None ->
  let text := normalizedText (analyzeText (rawTextOf event)) in
  (1000 < jslength text)%Z ->
  exists response w' item,
    handler event context w = (inr response, w')
    /\ statusCode response = 200%Z
    /\ table w' !! Item.id item = Some item
    /\ Item.textContent item = take 1000 text ++ lit "..."
    /\ jslength (Item.textContent item) = 1003%Z.
Proof.
  intros Hf Hput text Hlong.
  rewrite (handler_valid_stored event context w Hf Hput).
  eexists _, _, (storedItem event w). split; [reflexivity|].
  split; [reflexivity|]. split; [apply lookup_insert_eq|].
  assert (Et : Item.textContent (storedItem event w)
               = take 1000 text ++ lit "...").
  { unfold storedItem, textContentOf. cbn [Item.textContent]. fold text.
    apply Z.gtb_lt in Hlong. now rewrite Hlong. }
  split; [exact Et|]. rewrite Et. unfold jslength in *.
  rewrite length_app, length_take.
  change (length (lit "...")) with 3%nat. lia.
Qed.

End HandlerClaims.

(* ===================================================================== *)
(** ** The handler on the sample requests *)
(* ===================================================================== *)

Import SpecValidation.

(** [Buffer.from(s, 'utf-8')] keeps ASCII text as it is. *)
Lemma utf8_encode_ascii (s : jsstring) :
  Forall (fun c => c < 128) s -> Node.utf8_encode s = s.
Proof.
  induction 1 as [|c s Hc _ IH]; [reflexivity|].
  cbn [Node.utf8_encode]. apply N.ltb_lt in Hc. rewrite Hc. now rewrite IH.
Qed.

Lemma fileBuffer_utf8 (event : APIGatewayProxyEvent) (b : jsstring) :
  body event = Some b -> isBase64Encoded event = false ->
  fileBufferOf event = Node.utf8_encode b.
Proof. intros Eb E64. unfold fileBufferOf. now rewrite Eb, E64. Qed.

Lemma oversized_ascii :
  Forall (fun c => c < 128) (97 :: repeat 97 (N.to_nat 1048576)).
Proof.
  constructor; [reflexivity|]. apply List.Forall_forall. intros c Hc.
  apply repeat_spec in Hc. now subst c.
Qed.

Lemma oversized_size :
  jslength (fileBufferOf Samples.oversized) = 1048577%Z.
Proof.
  rewrite (fileBuffer_utf8 Samples.oversized
             (97 :: repeat 97 (N.to_nat 1048576)) eq_refl eq_refl).
  rewrite (utf8_encode_ascii _ oversized_ascii). unfold jslength.
  rewrite length_cons, repeat_length, Nat2Z.inj_succ, N_nat_Z. reflexivity.
Qed.

Lemma handler_halts_at_first_violation_witness :
  violated MissingPayload Samples.blankJson = false
  /\ violated WrongContentType Samples.blankJson = true
  /\ violated WhitespaceOnly Samples.blankJson = true
  /\ fst (handler Samples.blankJson Samples.context0 Samples.world0)
     = inr (mkResult 400
              (messageOnly
                 (lit "Invalid file type. Only text/plain (.txt) files are allowed."))).
Proof.
  assert (H1 : violated MissingPayload Samples.blankJson = false)
    by reflexivity.
  assert (H2 : violated WrongContentType Samples.blankJson = true)
    by (vm_compute; reflexivity).
  split; [exact H1|]. split; [exact H2|].
  split; [vm_compute; reflexivity|].
  apply (handler_halts_at_first_violation Samples.blankJson Samples.context0
           Samples.world0 [MissingPayload] WrongContentType
           [EmptyPayload; PayloadTooLarge; WhitespaceOnly; NoContent]
           eq_refl).
  - constructor; [exact H1 | constructor].
  - exact H2.
Defined.

Lemma handler_empty_body_witness :
  fst (handler Samples.emptyBody Samples.context0 Samples.world0)
  = inr (mkResult 400 (messageOnly (lit "No file uploaded."))).
Proof.
  destruct (handler_empty_body Samples.emptyBody Samples.context0
              Samples.world0 eq_refl) as [E _].
  rewrite E. reflexivity.
Defined.

Lemma handler_size_limit_witness :
  violated MissingPayload Samples.oversized = false
  /\ violated WrongContentType Samples.oversized = false
  /\ fst (handler Samples.oversized Samples.context0 Samples.world0)
     = inr (mkResult 400
              (messageOnly
                 (lit "File size exceeds the 1MB limit. Your file size: 1048577 bytes."))).
Proof.
  assert (H1 : violated MissingPayload Samples.oversized = false)
    by reflexivity.
  assert (H2 : violated WrongContentType Samples.oversized = false)
    by reflexivity.
  split; [exact H1|]. split; [exact H2|].
  destruct (handler_size_limit Samples.oversized Samples.context0
              Samples.world0 H1 H2) as (_ & Hexact & _).
  apply Hexact. exact oversized_size.
Defined.

Lemma stored_text_truncated_witness :
  exists response w' item,
    handler Samples.longText Samples.context0 Samples.world0
    = (inr response, w')
    /\ statusCode response = 200%Z
    /\ table w' !! Item.id item = Some item
    /\ Item.textContent item = repeat 97 1000 ++ lit "..."
    /\ jslength (Item.textContent item) = 1003%Z.
Proof.
  assert (Hf : firstViolation Samples.longText = None)
    by (vm_compute; reflexivity).
  assert (Hlong : (1000 < jslength (normalizedText
                     (analyzeText (rawTextOf Samples.longText))))%Z)
    by (vm_compute; reflexivity).
  destruct (stored_text_truncated Samples.longText Samples.context0
              Samples.world0 Hf eq_refl Hlong)
    as (response & w' & item & E & Hs & Hl & Ht & Hn).
  exists response, w', item.
  split; [exact E|]. split; [exact Hs|]. split; [exact Hl|].
  split; [|exact Hn]. rewrite Ht. vm_compute. reflexivity.
Defined.

(** C6 as it is stated fails: a payload of 1200 characters, the letter a
    and 1199 spaces, is accepted and stored with a [textContent] of one
    character, since the text is trimmed before it is measured. *)
Lemma stored_text_1200_counterexample :
  jslength (rawTextOf Samples.paddedText) = 1200%Z
  /\ exists item,
       handler Samples.paddedText Samples.context0 Samples.world0
       = (inr (mkResult 200 (successBody (lit "1700000000000") 1 1)),
          mkWorld (<[lit "1700000000000" := item]> ∅)
            [ResponseLog 1700000000002 (lit "req-1")
               (mkResult 200 (successBody (lit "1700000000000") 1 1))]
            [1700000000003%Z] None)
       /\ Item.textContent item = lit "a"
       /\ jslength (Item.textContent item) <> 1003%Z.
Proof.
  split; [vm_compute; reflexivity|].
  exists (storedItem Samples.paddedText Samples.world0).
  split; [|split].
  - rewrite (handler_valid_stored Samples.paddedText Samples.context0
               Samples.world0); [|vm_compute; reflexivity | reflexivity].
    vm_compute. reflexivity.
  - vm_compute. reflexivity.
  - vm_compute. discriminate.
Qed.

Example handler_ok_ex :
  fst (handler (mkEvent (Some (lit "hello world" ++ [CR; LF; CR; LF] ++ lit "foo"))
                  Samples.textPlain false)
         Samples.context0 Samples.world0)
  = inr (mkResult 200 (successBody (lit "1700000000000") 3 2)).
Proof. vm_compute. reflexivity. Qed.

Example handler_spaces_and_tabs_ex :
  fst (handler (mkEvent (Some [SPACE; TAB; SPACE]) Samples.textPlain false)
         Samples.context0 Samples.world0)
  = inr (mkResult 400
           (messageOnly
              (lit "Uploaded file contains no meaningful text (only whitespace)."))).
Proof. vm_compute. reflexivity. Qed.

Example handler_base64_empty_ex :
  fst (handler (mkEvent (Some (lit "=")) Samples.textPlain true)
         Samples.context0 Samples.world0)
  = inr (mkResult 400 (messageOnly (lit "Uploaded file is empty."))).
Proof. vm_compute. reflexivity. Qed.

Example handler_put_rejected_ex :
  handler (mkEvent (Some (lit "x")) Samples.textPlain false) Samples.context0
    (mkWorld ∅ [] [] (Some (lit "boom")))
  = (inr (mkResult 500 (errorBody (lit "boom") (lit "req-1"))),
     mkWorld ∅
       [ErrorLog 0 (lit "req-1") (lit "boom") Samples.textPlain (lit "x");
        ResponseLog 0 (lit "req-1")
          (mkResult 500 (errorBody (lit "boom") (lit "req-1")))]
       [] (Some (lit "boom"))).
Proof. vm_compute. reflexivity. Qed.

(* ===================================================================== *)
(** ** Numbers in decimal *)
(* ===================================================================== *)

Lemma lit_inj (s t : string) : lit s = lit t -> s = t.
Proof.
  unfold lit. intros E.
  rewrite <- (string_of_list_ascii_of_string s),
          <- (string_of_list_ascii_of_string t).
  f_equal. revert E.
  generalize (list_ascii_of_string s) (list_ascii_of_string t).
  induction l as [|a l IH]; intros [|b l']; simpl; try discriminate;
    [reflexivity|].
  intros [= Eab El]. f_equal; [|now apply IH].
  apply Nat2N.inj in Eab.
  now rewrite <- (ascii_nat_embedding a), <- (ascii_nat_embedding b), Eab.
Qed.

Lemma to_int_printable (n : Z) :
  Z.to_int n <> Decimal.Pos Decimal.Nil /\ Z.to_int n <> Decimal.Neg Decimal.Nil.
Proof.
  destruct n as [|p|p]; simpl; split; try discriminate;
    intros [= E]; now apply (DecimalPos.Unsigned.to_uint_nonnil p).
Qed.

Lemma toString_inj (n m : Z) : toString n = toString m -> n = m.
Proof.
  unfold toString. intros E. apply lit_inj in E.
  apply DecimalZ.to_int_inj.
  destruct (to_int_printable n) as [Hn1 Hn2].
  destruct (to_int_printable m) as [Hm1 Hm2].
  assert (Hn := NilZero.isi _ Hn1 Hn2).
  assert (Hm := NilZero.isi _ Hm1 Hm2).
  rewrite E in Hn. congruence.
Qed.

(* ===================================================================== *)
(** ** Counting words and lines where they start *)
(* ===================================================================== *)

Section Counting.

Lemma withText_cons (seg : jsstring) (rest : list jsstring) :
  withText (seg :: rest)
  = ((if hasText seg then 1 else 0) + withText rest)%nat.
Proof. unfold withText. simpl. now destruct (hasText seg). Qed.

(** The count of [split(/\s+/)] and the count of what follows its first
    segment. *)
Lemma split_ws_wordStarts (s : jsstring) :
  withText (split_ws_from false s) = wordStarts true s
  /\ withText (tl (split_ws_from false s)) = wordStarts false s.
Proof.
  induction s as [|c s [IH1 IH2]]; [split; reflexivity|].
  cbn [split_ws_from wordStarts].
  destruct (isWhiteSpace c) eqn:Ec.
  - cbn [tl]. rewrite withText_cons. cbn [hasText existsb].
    assert (E : withText (split_ws_from true s) = wordStarts true s).
    { unfold withText. now rewrite count_split_ws_inrun. }
    now rewrite E.
  - destruct (split_ws_from_cons false s) as (tok & toks & E).
    rewrite E in *. cbn [cons_first tl] in *. rewrite withText_cons.
    cbn [hasText existsb]. rewrite Ec. cbn [negb orb]. now rewrite IH2.
Qed.

Lemma countWords_wordStarts (s : jsstring) :
  countWords s = Z.of_nat (wordStarts true s).
Proof.
  unfold countWords, split_ws, jslength. rewrite filter_nonblank.
  f_equal. apply split_ws_wordStarts.
Qed.

Lemma split_lf_lineStarts (s : jsstring) :
  withText (split_lf s) = lineStarts true s
  /\ withText (tl (split_lf s)) = lineStarts false s.
Proof.
  induction s as [|c s [IH1 IH2]]; [split; reflexivity|].
  cbn [split_lf lineStarts].
  destruct (N.eqb_spec c LF) as [->|Hc].
  - cbn [tl]. rewrite withText_cons. cbn [hasText existsb]. now rewrite IH1.
  - destruct (split_lf_cons s) as (seg & rest & E).
    rewrite E in *. cbn [cons_first tl] in *. rewrite withText_cons.
    cbn [hasText existsb]. fold (hasText seg).
    rewrite withText_cons in IH1.
    destruct (isWhiteSpace c) eqn:Ec; cbn [negb orb].
    + now rewrite IH1, IH2.
    + now rewrite IH2.
Qed.

Lemma countLines_lineStarts (s : jsstring) :
  countLines s = Z.of_nat (lineStarts true s).
Proof.
  unfold countLines, jslength. rewrite filter_nonblank.
  f_equal. apply split_lf_lineStarts.
Qed.

End Counting.

(* ===================================================================== *)
(** ** What normalization does to the counts *)
(* ===================================================================== *)

Section NormalizedCounts.

(** What [trimStart] and [trimEnd] drop is white space. *)
Lemma trimStart_split (s : jsstring) :
  exists a, s = a ++ trimStart s /\ hasText a = false.
Proof.
  induction s as [|c s (a & E & Ha)]; [now exists []|].
  cbn [trimStart]. destruct (isWhiteSpace c) eqn:Ec.
  - exists (c :: a). split; [simpl; now f_equal|].
    cbn [hasText existsb]. now rewrite Ec.
  - now exists [].
Qed.

Lemma trimEnd_split (s : jsstring) :
  exists a, s = trimEnd s ++ a /\ hasText a = false.
Proof.
  destruct (trimStart_split (List.rev s)) as (a & E & Ha).
  exists (List.rev a). split; [|now rewrite hasText_rev].
  unfold trimEnd. rewrite <- rev_app_distr, <- E. now rewrite rev_involutive.
Qed.

Lemma wordStarts_blank (b : bool) (s : jsstring) :
  hasText s = false -> wordStarts b s = 0%nat.
Proof.
  revert b. induction s as [|c s IH]; intros b; [reflexivity|].
  cbn [hasText existsb wordStarts]. fold (hasText s).
  destruct (isWhiteSpace c); [apply IH | discriminate].
Qed.

(** White space between two texts separates their words. *)
Lemma wordStarts_app (b : bool) (s : jsstring) (c : N) (t : jsstring) :
  isWhiteSpace c = true ->
  wordStarts b (s ++ c :: t) = (wordStarts b s + wordStarts true t)%nat.
Proof.
  intros Hc. revert b. induction s as [|d s IH]; intros b.
  - cbn [app wordStarts]. now rewrite Hc.
  - cbn [app wordStarts]. destruct (isWhiteSpace d); rewrite IH; lia.
Qed.

Lemma wordStarts_app_blank (b : bool) (s a : jsstring) :
  hasText a = false -> wordStarts b (s ++ a) = wordStarts b s.
Proof.
  intros Ha. destruct a as [|c a]; [now rewrite app_nil_r|].
  cbn [hasText existsb] in Ha. fold (hasText a) in Ha.
  destruct (isWhiteSpace c) eqn:Ec; [|discriminate].
  rewrite (wordStarts_app b s c a Ec), (wordStarts_blank true a Ha). lia.
Qed.

Lemma wordStarts_trimStart (s : jsstring) :
  wordStarts true (trimStart s) = wordStarts true s.
Proof.
  induction s as [|c s IH]; [reflexivity|].
  cbn [trimStart wordStarts]. destruct (isWhiteSpace c) eqn:Ec; [exact IH|].
  cbn [wordStarts]. now rewrite Ec.
Qed.

Lemma wordStarts_trim (s : jsstring) :
  wordStarts true (trim s) = wordStarts true s.
Proof.
  unfold trim. destruct (trimEnd_split (trimStart s)) as (a & E & Ha).
  rewrite <- (wordStarts_trimStart s). rewrite E at 2.
  now rewrite wordStarts_app_blank.
Qed.

Lemma wordStarts_replace_cr (b : bool) (s : jsstring) :
  wordStarts b (replace_cr s) = wordStarts b s.
Proof.
  revert b. induction s as [|c s IH]; intros b; [reflexivity|].
  cbn [replace_cr List.map wordStarts]. fold (replace_cr s).
  destruct (N.eqb_spec c CR) as [->|_].
  - rewrite isWhiteSpace_LF, isWhiteSpace_CR. apply IH.
  - now rewrite !IH.
Qed.

Lemma wordStarts_replace_crlf_upto (n : nat) (b : bool) (s : jsstring) :
  (length s <= n)%nat -> wordStarts b (replace_crlf s) = wordStarts b s.
Proof.
  revert b s. induction n as [|n IH]; intros b [|c s] Hn;
    cbn [length] in Hn; try reflexivity; try lia.
  cbn [replace_crlf].
  destruct (N.eqb_spec c CR) as [->|Hc].
  - destruct s as [|d s]; [reflexivity|].
    destruct (N.eqb_spec d LF) as [->|Hd].
    + cbn [wordStarts]. rewrite isWhiteSpace_LF, isWhiteSpace_CR.
      apply IH. cbn [length] in Hn. lia.
    + cbn [wordStarts]. rewrite isWhiteSpace_CR.
      rewrite IH by (cbn [length] in *; lia). reflexivity.
  - cbn [wordStarts]. now rewrite !IH by lia.
Qed.

Lemma wordStarts_normalize (s : jsstring) :
  wordStarts true (normalize s) = wordStarts true s.
Proof.
  unfold normalize.
  rewrite wordStarts_trim, wordStarts_replace_cr.
  now apply (wordStarts_replace_crlf_upto (length s)).
Qed.

Lemma lineStarts_blank (b : bool) (s : jsstring) :
  hasText s = false -> lineStarts b s = 0%nat.
Proof.
  revert b. induction s as [|c s IH]; intros b; [reflexivity|].
  cbn [hasText existsb lineStarts]. fold (hasText s).
  destruct (c =? LF); [destruct (isWhiteSpace c); [apply IH | discriminate]|].
  destruct (isWhiteSpace c); [apply IH | discriminate].
Qed.

Lemma lineStarts_app_blank (b : bool) (s a : jsstring) :
  hasText a = false -> lineStarts b (s ++ a) = lineStarts b s.
Proof.
  intros Ha. revert b. induction s as [|c s IH]; intros b.
  - cbn [app]. now rewrite lineStarts_blank.
  - cbn [app lineStarts]. now rewrite !IH.
Qed.

Lemma lineStarts_trimStart (s : jsstring) :
  lineStarts true (trimStart s) = lineStarts true s.
Proof.
  induction s as [|c s IH]; [reflexivity|].
  cbn [trimStart lineStarts]. destruct (isWhiteSpace c) eqn:Ec.
  - rewrite IH. now destruct (c =? LF).
  - cbn [lineStarts]. now rewrite Ec.
Qed.

(** Trimming takes no line with text away. *)
Lemma lineStarts_trim (s : jsstring) :
  lineStarts true (trim s) = lineStarts true s.
Proof.
  unfold trim. destruct (trimEnd_split (trimStart s)) as (a & E & Ha).
  rewrite <- (lineStarts_trimStart s). rewrite E at 2.
  now rewrite lineStarts_app_blank.
Qed.

End NormalizedCounts.

(* ===================================================================== *)
(** ** More on the analysis function *)
(* ===================================================================== *)

Section AnalysisFacts.

Lemma normalize_blank (s : jsstring) : hasText s = false -> normalize s = [].
Proof. intros Hs. apply trim_nil. now rewrite replace_cr_hasText, replace_crlf_hasText. Qed.

(** X1: A text without text, the empty one included, analyses to the empty
    text with no word and no line, and no other text has a count of
    zero. *)
Theorem analyzeText_blank_iff (rawText : jsstring) :
  (hasText rawText = false -> analyzeText rawText = mkAnalysis 0 0 [])
  /\ (wordCount (analyzeText rawText) = 0%Z <-> hasText rawText = false)
  /\ (lineCount (analyzeText rawText) = 0%Z <-> hasText rawText = false).
Proof.
  assert (Hblank : hasText rawText = false ->
                   analyzeText rawText = mkAnalysis 0 0 []).
  { intros Hs. unfold analyzeText. now rewrite (normalize_blank _ Hs). }
  split; [exact Hblank|].
  destruct (hasText rawText) eqn:Hs.
  - destruct (counts_positive rawText Hs) as [Hw Hl].
    cbn [analyzeText wordCount lineCount].
    split; split; try discriminate; lia.
  - rewrite (Hblank eq_refl). cbn. tauto.
Qed.

Lemma replace_crlf_length (s : jsstring) :
  (length (replace_crlf s) <= length s)%nat.
Proof.
  assert (H : forall n s, (length s <= n)%nat ->
                (length (replace_crlf s) <= length s)%nat).
  { clear s. induction n as [|n IH]; intros [|c s] Hn; cbn [length] in Hn;
      try (simpl; lia).
    cbn [replace_crlf]. destruct (c =? CR).
    - destruct s as [|d s]; [simpl; lia|]. destruct (d =? LF).
      + cbn [length] in *. specialize (IH s). lia.
      + cbn [length] in *. specialize (IH (d :: s)). cbn [length] in IH. lia.
    - cbn [length]. specialize (IH s). lia. }
  now apply (H (length s)).
Qed.

Lemma trimStart_length (s : jsstring) :
  (length (trimStart s) <= length s)%nat.
Proof.
  induction s as [|c s IH]; simpl; [lia|].
  destruct (isWhiteSpace c); simpl; lia.
Qed.

Lemma trim_length (s : jsstring) : (length (trim s) <= length s)%nat.
Proof.
  unfold trim, trimEnd. rewrite length_rev.
  etransitivity; [apply trimStart_length|]. rewrite length_rev.
  apply trimStart_length.
Qed.

Lemma trim_head (s : jsstring) (c : N) :
  head (trim s) = Some c -> isWhiteSpace c = false.
Proof.
  unfold trim. destruct (trimStart s) as [|d y] eqn:E; [discriminate|].
  assert (Hd := trimStart_cons_inv _ _ _ E).
  rewrite (trimEnd_head d y Hd). now intros [= <-].
Qed.

Lemma trimEnd_last (s : jsstring) (c : N) :
  last (trimEnd s) = Some c -> isWhiteSpace c = false.
Proof.
  unfold trimEnd. destruct (trimStart (List.rev s)) as [|d y] eqn:E;
    [discriminate|].
  assert (Hd := trimStart_cons_inv _ _ _ E).
  cbn [List.rev]. rewrite last_snoc. now intros [= <-].
Qed.

(** X2: The normalized text has no carriage return, is no longer than the raw
    text, and neither starts nor ends with white space. *)
Theorem normalizedText_shape (rawText : jsstring) :
  let text := normalizedText (analyzeText rawText) in
  noCR text
  /\ (jslength text <= jslength rawText)%Z
  /\ (forall c, head text = Some c -> isWhiteSpace c = false)
  /\ (forall c, last text = Some c -> isWhiteSpace c = false).
Proof.
  cbn [analyzeText normalizedText]. split; [apply normalize_noCR|].
  split; [|split].
  - unfold jslength, normalize. apply inj_le.
    etransitivity; [apply trim_length|].
    unfold replace_cr. rewrite length_map. apply replace_crlf_length.
  - intros c. apply trim_head.
  - intros c. apply trimEnd_last.
Qed.

(** X3: Normalization does not change the word count: it is the number of
    tokens the raw text has. *)
Theorem wordCount_of_raw_text (rawText : jsstring) :
  wordCount (analyzeText rawText) = countWords rawText.
Proof.
  cbn [analyzeText wordCount].
  now rewrite !countWords_wordStarts, wordStarts_normalize.
Qed.

End AnalysisFacts.

(* ===================================================================== *)
(** ** Texts with mixed line endings *)
(* ===================================================================== *)

Section MixedEndings.

Local Abbreviation unify s := (replace_cr (replace_crlf s)).

Lemma isLine_noCR (l : jsstring) : isLine l -> noCR l.
Proof. intros Hl. eapply List.Forall_impl; [|exact Hl]. now intros c [Hc _]. Qed.

Lemma unify_line_app (l x : jsstring) :
  isLine l -> unify (l ++ x) = l ++ unify x.
Proof.
  intros Hl. apply isLine_noCR in Hl.
  rewrite (replace_crlf_app l x Hl). unfold replace_cr.
  rewrite List.map_app. fold (replace_cr l). now rewrite (replace_cr_id l Hl).
Qed.

(** After the replacements every line ending is one line feed, or, for a
    lone CR right before a line feed, part of the next one. *)
Lemma unify_ending (e : LineEnding) (t : jsstring) :
  exists y, unify (ending e ++ t) = LF :: y
            /\ lineStarts true y = lineStarts true (unify t).
Proof.
  destruct e; cbn [ending app].
  - exists (unify t). split; reflexivity.
  - destruct t as [|d t].
    + exists []. split; reflexivity.
    + cbn [replace_crlf]. change (CR =? CR) with true. cbn iota.
      destruct (N.eqb_spec d LF) as [->|Hd].
      * exists (unify t). split; [reflexivity|].
        cbn [replace_crlf]. change (LF =? CR) with false. cbn iota.
        reflexivity.
      * exists (unify (d :: t)). split; reflexivity.
  - exists (unify t). split; reflexivity.
Qed.

Lemma lineStarts_line (b : bool) (l : jsstring) :
  isLine l -> lineStarts b l = if b && hasText l then 1%nat else 0%nat.
Proof.
  intros Hl. revert b. induction Hl as [|c l [_ Hc] _ IH]; intros b.
  - now destruct b.
  - cbn [lineStarts hasText existsb]. fold (hasText l).
    destruct (N.eqb_spec c LF); [contradiction|].
    destruct (isWhiteSpace c); cbn [negb orb].
    + apply IH.
    + rewrite IH. cbn [andb]. destruct b; reflexivity.
Qed.

Lemma lineStarts_line_break (b : bool) (l y : jsstring) :
  isLine l ->
  lineStarts b (l ++ LF :: y)
  = ((if b && hasText l then 1 else 0) + lineStarts true y)%nat.
Proof.
  intros Hl. revert b. induction Hl as [|c l [_ Hc] _ IH]; intros b.
  - cbn [app lineStarts hasText existsb]. change (LF =? LF) with true.
    now rewrite andb_false_r.
  - cbn [app lineStarts hasText existsb]. fold (hasText l).
    destruct (N.eqb_spec c LF); [contradiction|].
    destruct (isWhiteSpace c); cbn [negb orb].
    + apply IH.
    + rewrite IH. cbn [andb]. destruct b; reflexivity.
Qed.

Lemma lineStarts_render (first : jsstring)
    (rest : list (LineEnding * jsstring)) :
  Forall isLine (first :: List.map snd rest) ->
  lineStarts true (unify (render first rest))
  = withText (first :: List.map snd rest).
Proof.
  revert first. induction rest as [|[e l] rest IH]; intros first Hlines.
  - inversion_clear Hlines as [|? ? Hfirst _]. cbn [render List.map].
    rewrite (replace_crlf_id _ (isLine_noCR _ Hfirst)),
            (replace_cr_id _ (isLine_noCR _ Hfirst)).
    rewrite (lineStarts_line true first Hfirst), withText_cons. cbn. lia.
  - inversion_clear Hlines as [|? ? Hfirst Hrest].
    cbn [render List.map snd]. rewrite (unify_line_app first _ Hfirst).
    destruct (unify_ending e (render l rest)) as (y & -> & Hy).
    rewrite (lineStarts_line_break true first y Hfirst), Hy.
    rewrite (IH l Hrest), (withText_cons first). reflexivity.
Qed.

Lemma wordStarts_render (first : jsstring)
    (rest : list (LineEnding * jsstring)) :
  Z.of_nat (wordStarts true (render first rest))
  = foldr Z.add 0%Z (List.map countWords (first :: List.map snd rest)).
Proof.
  revert first. induction rest as [|[e l] rest IH]; intros first.
  - cbn [render List.map foldr]. rewrite countWords_wordStarts. lia.
  - cbn [render].
    change (List.map snd ((e, l) :: rest)) with (l :: List.map snd rest).
    rewrite (List.map_cons countWords first). cbn [foldr].
    rewrite <- (IH l), (countWords_wordStarts first).
    destruct e; cbn [ending app].
    + rewrite (wordStarts_app true first CR _ isWhiteSpace_CR).
      cbn [wordStarts]. rewrite isWhiteSpace_LF. lia.
    + rewrite (wordStarts_app true first CR _ isWhiteSpace_CR). lia.
    + rewrite (wordStarts_app true first LF _ isWhiteSpace_LF). lia.
Qed.

(** X4: The counts of a text depend on its lines only, not on the line endings
    between them, which may be mixed: the line count is the number of lines
    with text and the word count is the sum of the word counts of the
    lines. *)
Theorem analyzeText_mixed_line_endings (first : jsstring)
    (rest : list (LineEnding * jsstring)) :
  Forall isLine (first :: List.map snd rest) ->
  let a := analyzeText (render first rest) in
  lineCount a = Z.of_nat (withText (first :: List.map snd rest))
  /\ wordCount a
     = foldr Z.add 0%Z (List.map countWords (first :: List.map snd rest)).
Proof.
  intros Hlines. cbn [analyzeText lineCount wordCount]. split.
  - rewrite countLines_lineStarts. unfold normalize.
    now rewrite lineStarts_trim, lineStarts_render.
  - rewrite countWords_wordStarts, wordStarts_normalize.
    apply wordStarts_render.
Qed.

End MixedEndings.

Lemma analyzeText_mixed_line_endings_witness :
  let a := analyzeText (render (lit "one two")
                          [(LoneCR, []); (LoneLF, lit "three");
                           (CRLF, lit " "); (LoneCR, lit "four")]) in
  lineCount a = 3%Z /\ wordCount a = 4%Z.
Proof.
  apply (analyzeText_mixed_line_endings (lit "one two")
           [(LoneCR, []); (LoneLF, lit "three");
            (CRLF, lit " "); (LoneCR, lit "four")]).
  repeat constructor; discriminate.
Defined.

(* ===================================================================== *)
(** ** More on the handler *)
(* ===================================================================== *)

Section HandlerExtras.
Context `{Runtime}.

Lemma respond_run (code : Z) (obj : jsobject) (event : APIGatewayProxyEvent)
    (context : Context) (w : World) :
  respond code obj event context w
  = (inr (mkResult code obj),
     mkWorld (table w)
       (console w
        ++ [ResponseLog (reading 0 w) (awsRequestId context)
              (mkResult code obj)])
       (drop 1 (clock w)) (putFailure w)).
Proof.
  unfold respond, logResponse, bind, ret, now, consoleLog, reading.
  destruct w as [tbl con [|t clk] pf]; reflexivity.
Qed.

(** X6: Every response is logged: the console keeps what it held and its last
    entry is the response that is returned, under the request id; only a
    500 response has an entry before it, the error entry, whose copy of the
    body is its first 200 code units at most. *)
Theorem handler_logs_every_response (event : APIGatewayProxyEvent)
    (context : Context) (w : World) :
  exists response w' earlier t,
    handler event context w = (inr response, w')
    /\ console w'
       = console w ++ earlier
         ++ [ResponseLog t (awsRequestId context) response]
    /\ (statusCode response <> 500%Z -> earlier = [])
    /\ (statusCode response = 500%Z ->
        exists t' e,
          earlier = [ErrorLog t' (awsRequestId context) e (headers event)
                       (take 200 (default [] (body event)))]).
Proof.
  destruct (firstViolation event) as [c|] eqn:Hf.
  - rewrite (handler_firstViolation event context w c Hf), respond_run.
    eexists _, _, [], _. split; [reflexivity|]. cbn.
    split; [reflexivity|]. split; [reflexivity | discriminate].
  - destruct (putFailure w) as [e|] eqn:Hput.
    + rewrite (handler_valid_failed event context w e Hf Hput).
      eexists _, _, [_], _. split; [reflexivity|]. cbn.
      split; [reflexivity|]. split; [congruence|]. intros _.
      eexists _, e. reflexivity.
    + rewrite (handler_valid_stored event context w Hf Hput).
      eexists _, _, [], _. split; [reflexivity|]. cbn.
      split; [reflexivity|]. split; [reflexivity | discriminate].
Qed.

(** X7: When the store rejects the put of a valid request, the response is
    HTTP 500 with the error's message and the request id, and the table is
    as it was. *)
Theorem handler_store_error (event : APIGatewayProxyEvent)
    (context : Context) (w : World) (e : jsstring) :
  firstViolation event = None -> putFailure w = Some e ->
  fst (handler event context w)
  = inr (mkResult 500
           [("message"%string, VStr (lit "Error processing text"));
            ("error"%string, VStr e);
            ("requestId"%string, VStr (awsRequestId context))])
  /\ table (snd (handler event context w)) = table w.
Proof.
  intros Hf Hput. rewrite (handler_valid_failed event context w e Hf Hput).
  split; reflexivity.
Qed.

(** X8: The sixth message is never sent: no request gets "No text content
    found after processing.". *)
Theorem handler_never_no_content (event : APIGatewayProxyEvent)
    (context : Context) (w : World) :
  fst (handler event context w)
  <> inr (mkResult 400
            (messageOnly (lit "No text content found after processing."))).
Proof.
  destruct (firstViolation event) as [c|] eqn:Hf.
  - rewrite (handler_firstViolation event context w c Hf), respond_run.
    cbn [fst]. intros [= E].
    assert (Hc : c <> NoContent).
    { intros ->. revert Hf. unfold firstViolation. cbn [find checksInOrder].
      destruct (violated MissingPayload event); [discriminate|].
      destruct (violated WrongContentType event); [discriminate|].
      destruct (violated EmptyPayload event); [discriminate|].
      destruct (violated PayloadTooLarge event); [discriminate|].
      destruct (violated WhitespaceOnly event) eqn:Hw; [discriminate|].
      now rewrite (no_content_unreachable event Hw). }
    revert E. change (lit "No text content found after processing.")
      with (messageOf NoContent event).
    now apply messageOf_distinct.
  - destruct (putFailure w) as [e|] eqn:Hput.
    + rewrite (handler_valid_failed event context w e Hf Hput). discriminate.
    + rewrite (handler_valid_stored event context w Hf Hput). discriminate.
Qed.

(** X9: A 200 response reports the counts of the decoded text, with at least
    one line and at least as many words as lines, under the id made of the
    first clock reading. *)
Theorem handler_success_counts (event : APIGatewayProxyEvent)
    (context : Context) (w : World) (response : APIGatewayProxyResult) :
  fst (handler event context w) = inr response ->
  statusCode response = 200%Z ->
  let a := analyzeText (rawTextOf event) in
  payload response
  = successBody (toString (reading 0 w)) (wordCount a) (lineCount a)
  /\ (1 <= lineCount a <= wordCount a)%Z.
Proof.
  intros Hr Hs.
  destruct (firstViolation event) as [c|] eqn:Hf.
  { rewrite (handler_firstViolation event context w c Hf), respond_run in Hr.
    injection Hr as <-. discriminate. }
  destruct (putFailure w) as [e|] eqn:Hput.
  { rewrite (handler_valid_failed event context w e Hf Hput) in Hr.
    injection Hr as <-. discriminate. }
  rewrite (handler_valid_stored event context w Hf Hput) in Hr.
  injection Hr as <-. split; [reflexivity|].
  assert (Hw : violated WhitespaceOnly event = false).
  { revert Hf. unfold firstViolation. cbn [find checksInOrder].
    destruct (violated MissingPayload event); [discriminate|].
    destruct (violated WrongContentType event); [discriminate|].
    destruct (violated EmptyPayload event); [discriminate|].
    destruct (violated PayloadTooLarge event); [discriminate|].
    now destruct (violated WhitespaceOnly event). }
  cbn [violated] in Hw.
  destruct (counts_positive (rawTextOf event)) as [_ Hl].
  { rewrite hasText_forallb, Hw. reflexivity. }
  split; [exact Hl|].
  cbn [analyzeText lineCount wordCount].
  rewrite countLines_lineStarts, countWords_wordStarts.
  apply inj_le. rewrite <- (proj1 (split_lf_lineStarts _)),
    <- (proj1 (split_ws_wordStarts _)).
  apply count_lines_le_words.
Qed.

(** X10: Only the header names [content-type] and [Content-Type] are read: a
    request with a body and with neither of them, or with both empty, is
    refused for its type, whatever other headers it has. *)
Theorem handler_content_type_missing (event : APIGatewayProxyEvent)
    (context : Context) (w : World) :
  truthy (body event) = true ->
  truthy (headers event !! lit "content-type") = false ->
  truthy (headers event !! lit "Content-Type") = false ->
  fst (handler event context w)
  = inr (mkResult 400
           (messageOnly
              (lit "Invalid file type. Only text/plain (.txt) files are allowed.")))
  /\ table (snd (handler event context w)) = table w.
Proof.
  intros Hb H1 H2.
  assert (Hf : firstViolation event = Some WrongContentType).
  { unfold firstViolation. cbn [find checksInOrder violated].
    rewrite Hb. cbn [negb]. unfold contentTypeOf, or_else.
    rewrite H1, H2. reflexivity. }
  rewrite (handler_firstViolation event context w _ Hf), respond_run.
  split; reflexivity.
Qed.

(** X11: The lower-case header comes first: when [content-type] is not empty
    and does not contain text/plain, the request is refused for its type
    whatever [Content-Type] says. *)
Theorem handler_content_type_precedence (event : APIGatewayProxyEvent)
    (context : Context) (w : World) (declared : jsstring) :
  truthy (body event) = true ->
  headers event !! lit "content-type" = Some declared ->
  declared <> [] ->
  includes (lit "text/plain") (toLowerCase declared) = false ->
  fst (handler event context w)
  = inr (mkResult 400
           (messageOnly
              (lit "Invalid file type. Only text/plain (.txt) files are allowed.")))
  /\ table (snd (handler event context w)) = table w.
Proof.
  intros Hb Hd Hne Hinc.
  assert (Hf : firstViolation event = Some WrongContentType).
  { unfold firstViolation. cbn [find checksInOrder violated].
    rewrite Hb. cbn [negb]. unfold contentTypeOf, or_else. rewrite !Hd.
    destruct declared as [|c d]; [contradiction|].
    cbn [truthy default andb id from_option]. rewrite Hinc. reflexivity. }
  rewrite (handler_firstViolation event context w _ Hf), respond_run.
  split; reflexivity.
Qed.

(** X13: The size message tells the size: different sizes give different
    messages. *)
Theorem sizeMessage_tells_size (n m : Z) :
  n <> m -> sizeMessage n <> sizeMessage m.
Proof.
  intros Hnm E. apply Hnm. unfold sizeMessage in E.
  apply app_inv_head, app_inv_tail in E. now apply toString_inj.
Qed.

(** X14: The stored ids are the clock readings in decimal.  Two valid requests
    served one after the other: when the second reads the same millisecond
    as the first, its item replaces the first one; when it reads another,
    both items are in the table. *)
Theorem handler_same_millisecond_overwrites
    (event1 event2 : APIGatewayProxyEvent) (context1 context2 : Context)
    (w : World) :
  firstViolation event1 = None -> firstViolation event2 = None ->
  putFailure w = None ->
  let w1 := snd (handler event1 context1 w) in
  let w2 := snd (handler event2 context2 w1) in
  let item1 := storedItem event1 w in
  let item2 := storedItem event2 w1 in
  Item.id item1 = toString (reading 0 w)
  /\ Item.id item2 = toString (reading 3 w)
  /\ (reading 3 w = reading 0 w ->
      table w2 = <[Item.id item1 := item2]> (table w))
  /\ (reading 3 w <> reading 0 w ->
      table w2 !! Item.id item1 = Some item1
      /\ table w2 !! Item.id item2 = Some item2).
Proof.
  intros Hf1 Hf2 Hput w1 w2 item1 item2.
  assert (E1 : w1 = mkWorld (<[Item.id item1 := item1]> (table w))
                 (console w
                  ++ [ResponseLog (reading 2 w) (awsRequestId context1)
                        (mkResult 200
                           (successBody (Item.id item1) (Item.wordCount item1)
                              (Item.lineCount item1)))])
                 (drop 3 (clock w)) None).
  { unfold w1. now rewrite (handler_valid_stored event1 context1 w Hf1 Hput). }
  assert (Hput1 : putFailure w1 = None) by now rewrite E1.
  assert (E2 : table w2 = <[Item.id item2 := item2]> (table w1)).
  { unfold w2. now rewrite (handler_valid_stored event2 context2 w1 Hf2 Hput1). }
  assert (Eid2 : Item.id item2 = toString (reading 3 w)).
  { unfold item2, storedItem. cbn [Item.id]. f_equal. rewrite E1.
    unfold reading. cbn [clock].
    destruct (clock w) as [|t1 [|t2 [|t3 [|t4 clk]]]]; reflexivity. }
  split; [reflexivity|]. split; [exact Eid2|].
  rewrite E2. replace (table w1) with (<[Item.id item1 := item1]> (table w))
    by now rewrite E1.
  split.
  - intros Esame. rewrite Eid2, Esame.
    change (toString (reading 0 w)) with (Item.id item1).
    apply insert_insert_eq.
  - intros Hdiff.
    assert (Hid : Item.id item2 <> Item.id item1).
    { rewrite Eid2. change (Item.id item1) with (toString (reading 0 w)).
      intros E. now apply toString_inj in E. }
    split.
    + rewrite lookup_insert_ne by exact Hid. apply lookup_insert_eq.
    + apply lookup_insert_eq.
Qed.

(** X15: The stored text is never longer than 1003 code units; a normalized
    text of at most 1000 code units is stored as it is, and a longer one
    keeps its first 1000 code units. *)
Theorem stored_text_bounded (event : APIGatewayProxyEvent)
    (context : Context) (w : World) :
  firstViolation event = None -> putFailure w = None ->
  let text := normalizedText (analyzeText (rawTextOf event)) in
  exists item,
    table (snd (handler event context w)) !! toString (reading 0 w) = Some item
    /\ (jslength (Item.textContent item) <= 1003)%Z
    /\ ((jslength text <= 1000)%Z -> Item.textContent item = text)
    /\ take 1000 (Item.textContent item) = take 1000 text.
Proof.
  intros Hf Hput text.
  rewrite (handler_valid_stored event context w Hf Hput).
  exists (storedItem event w). split; [apply lookup_insert_eq|].
  unfold storedItem. cbn [Item.textContent]. fold text.
  unfold textContentOf, substring0, jslength.
  destruct (Z.gtb_spec (Z.of_nat (length text)) 1000) as [Hlong|Hshort].
  - split; [|split].
    + rewrite length_app, length_take.
      change (length (lit "...")) with 3%nat. lia.
    + lia.
    + rewrite take_app_le by (rewrite length_take; lia).
      apply take_take.
  - split; [lia|]. split; reflexivity.
Qed.

End HandlerExtras.

(* ===================================================================== *)
(** ** UTF-8 in the concrete runtime *)
(* ===================================================================== *)

Section Utf8.
Import Node.

(** Turn the boolean tests in the context into arithmetic. *)
Ltac tests :=
  unfold isHighSurrogate, isLowSurrogate in *;
  repeat match goal with
    | H : _ && _ = true |- _ => apply andb_true_iff in H; destruct H
    | H : _ && _ = false |- _ => apply andb_false_iff in H; destruct H
    | H : _ || _ = false |- _ => apply orb_false_iff in H; destruct H
    | H : negb _ = true |- _ => apply negb_true_iff in H
    | H : negb _ = false |- _ => apply negb_false_iff in H
    | H : (_ <=? _) = true |- _ => apply N.leb_le in H
    | H : (_ <=? _) = false |- _ => apply N.leb_gt in H
    | H : (_ <? _) = true |- _ => apply N.ltb_lt in H
    | H : (_ <? _) = false |- _ => apply N.ltb_ge in H
    | H : (_ =? _) = true |- _ => apply N.eqb_eq in H
    | H : (_ =? _) = false |- _ => apply N.eqb_neq in H
    end.

(** Decide every test of the goal, dropping the impossible branches. *)
Ltac branches :=
  repeat match goal with
    | |- context [if ?c then _ else _] =>
        let E := fresh "E" in destruct c eqn:E; tests; try lia
    end.

(** Linear arithmetic with division and remainder by constants. *)
Ltac dlia := zify; Z.to_euclidean_division_equations; lia.

Lemma land_mask (x : N) (k : N) : N.land x (N.ones k) = x mod 2 ^ k.
Proof. apply N.land_ones. Qed.

Lemma lead_ascii (b : N) : b < 0x80 -> lead b = ([b], None).
Proof. intros Hb. unfold lead. now branches. Qed.

Lemma lead_two (b : N) :
  0xC2 <= b <= 0xDF ->
  lead b = ([], Some (mkPending (b mod 32) 1 0x80 0xBF)).
Proof.
  intros Hb. unfold lead. change 0x1F with (N.ones 5).
  rewrite land_mask. now branches.
Qed.

Lemma lead_three (b : N) :
  0xE0 <= b <= 0xEF ->
  lead b = ([], Some (mkPending (b mod 16) 2
                        (if b =? 0xE0 then 0xA0 else 0x80)
                        (if b =? 0xED then 0x9F else 0xBF))).
Proof.
  intros Hb. unfold lead. change 0xF with (N.ones 4).
  rewrite land_mask.
  destruct (b <=? 0x7F) eqn:E1; tests; [lia|].
  destruct ((0xC2 <=? b) && (b <=? 0xDF)) eqn:E2; tests; [lia| |].
  - destruct ((0xE0 <=? b) && (b <=? 0xEF)) eqn:E3; tests; [reflexivity|lia|lia].
  - destruct ((0xE0 <=? b) && (b <=? 0xEF)) eqn:E3; tests; [reflexivity|lia|lia].
Qed.

Lemma lead_four (b : N) :
  0xF0 <= b <= 0xF4 ->
  lead b = ([], Some (mkPending (b mod 8) 3
                        (if b =? 0xF0 then 0x90 else 0x80)
                        (if b =? 0xF4 then 0x8F else 0xBF))).
Proof.
  intros Hb. unfold lead. change 0x7 with (N.ones 3).
  rewrite land_mask.
  destruct (b <=? 0x7F) eqn:E1; tests; [lia|].
  destruct ((0xC2 <=? b) && (b <=? 0xDF)) eqn:E2; tests; try lia;
  destruct ((0xE0 <=? b) && (b <=? 0xEF)) eqn:E3; tests; try lia;
  destruct ((0xF0 <=? b) && (b <=? 0xF4)) eqn:E4; tests; try lia; reflexivity.
Qed.

(** One continuation byte inside a sequence. *)
Lemma continue_last (p : Pending) (b : N) (bs : Buffer) :
  lower p <= b <= upper p -> needed p = 1 ->
  utf8_decode_from (Some p) (b :: bs)
  = utf16 (codePoint p * 64 + b mod 64) ++ utf8_decode_from None bs.
Proof.
  intros Hb Hn. cbn [utf8_decode_from]. change 0x3F with (N.ones 6).
  rewrite land_mask, Hn. change (1 =? 1) with true.
  destruct ((lower p <=? b) && (b <=? upper p)) eqn:E; tests; try lia.
  reflexivity.
Qed.

Lemma continue_more (p : Pending) (b : N) (bs : Buffer) :
  lower p <= b <= upper p -> needed p <> 1 ->
  utf8_decode_from (Some p) (b :: bs)
  = utf8_decode_from
      (Some (mkPending (codePoint p * 64 + b mod 64) (needed p - 1) 0x80 0xBF))
      bs.
Proof.
  intros Hb Hn. cbn [utf8_decode_from]. change 0x3F with (N.ones 6).
  rewrite land_mask. apply N.eqb_neq in Hn. rewrite Hn.
  destruct ((lower p <=? b) && (b <=? upper p)) eqn:E; tests; try lia.
  reflexivity.
Qed.

Lemma decode_lead (b : N) (bs : Buffer) :
  utf8_decode_from None (b :: bs)
  = fst (lead b) ++ utf8_decode_from (snd (lead b)) bs.
Proof. reflexivity. Qed.

Lemma decode_two (c : N) (bs : Buffer) :
  0x80 <= c < 0x800 ->
  utf8_decode_from None ([0xC0 + c / 64; 0x80 + c mod 64] ++ bs)
  = c :: utf8_decode_from None bs.
Proof.
  intros Hc. cbn [app]. rewrite decode_lead.
  rewrite lead_two by dlia. cbn [fst snd app].
  rewrite continue_last by (cbn [lower upper needed codePoint]; dlia). cbn [codePoint].
  replace ((0xC0 + c / 64) mod 32 * 64 + (0x80 + c mod 64) mod 64) with c
    by dlia.
  unfold utf16. now branches.
Qed.

Lemma decode_three (c : N) (bs : Buffer) :
  0x800 <= c < 0x10000 -> ~ (0xD800 <= c <= 0xDFFF) ->
  utf8_decode_from None
    ([0xE0 + c / 4096; 0x80 + (c / 64) mod 64; 0x80 + c mod 64] ++ bs)
  = c :: utf8_decode_from None bs.
Proof.
  intros Hc Hs. cbn [app]. rewrite decode_lead.
  rewrite lead_three by dlia. cbn [fst snd app].
  rewrite continue_more; cbn [lower upper needed codePoint];
    [|branches; dlia | discriminate].
  rewrite continue_last by (cbn [lower upper needed codePoint]; dlia). cbn [codePoint].
  replace (((0xE0 + c / 4096) mod 16 * 64 + (0x80 + (c / 64) mod 64) mod 64)
           * 64 + (0x80 + c mod 64) mod 64) with c by dlia.
  unfold utf16. now branches.
Qed.

Lemma decode_four (c d : N) (bs : Buffer) :
  0xD800 <= c <= 0xDBFF -> 0xDC00 <= d <= 0xDFFF ->
  let cp := 0x10000 + (c - 0xD800) * 1024 + (d - 0xDC00) in
  utf8_decode_from None
    ([0xF0 + cp / 262144; 0x80 + (cp / 4096) mod 64;
      0x80 + (cp / 64) mod 64; 0x80 + cp mod 64] ++ bs)
  = c :: d :: utf8_decode_from None bs.
Proof.
  intros Hc Hd cp.
  assert (Hcp : 0x10000 <= cp <= 0x10FFFF) by (unfold cp; dlia).
  assert (Epair : [0xD800 + (cp - 0x10000) / 1024;
                   0xDC00 + (cp - 0x10000) mod 1024] = [c; d]).
  { unfold cp. f_equal; [|f_equal]; dlia. }
  clearbody cp. cbn [app]. rewrite decode_lead.
  rewrite lead_four by dlia. cbn [fst snd app].
  rewrite continue_more; cbn [lower upper needed codePoint];
    [|branches; dlia | discriminate].
  rewrite continue_more; cbn [lower upper needed codePoint];
    [|dlia | discriminate].
  rewrite continue_last by (cbn [lower upper needed codePoint]; dlia). cbn [codePoint].
  replace ((((0xF0 + cp / 262144) mod 8 * 64
             + (0x80 + (cp / 4096) mod 64) mod 64) * 64
            + (0x80 + (cp / 64) mod 64) mod 64) * 64
           + (0x80 + cp mod 64) mod 64) with cp by dlia.
  unfold utf16. destruct (cp <? 0x10000) eqn:E; tests; [dlia|].
  now rewrite Epair.
Qed.

Lemma utf8_round_trip_upto (n : nat) (s : jsstring) :
  (length s <= n)%nat -> wellFormed s = true ->
  utf8_decode (utf8_encode s) = s.
Proof.
  unfold utf8_decode. revert s.
  induction n as [|n IH]; intros [|c s] Hn Hs; cbn [length] in Hn;
    try reflexivity; try lia.
  cbn [utf8_encode wellFormed] in *.
  destruct (c <? 0x80) eqn:E1.
  { destruct (isHighSurrogate c) eqn:Eh; [exfalso; tests; lia|].
    apply andb_true_iff in Hs. destruct Hs as [_ Hs].
    rewrite decode_lead, lead_ascii by (tests; lia). cbn [fst snd app].
    rewrite IH by (auto; lia). reflexivity. }
  destruct (c <? 0x800) eqn:E2.
  { destruct (isHighSurrogate c) eqn:Eh; [exfalso; tests; lia|].
    apply andb_true_iff in Hs. destruct Hs as [_ Hs].
    rewrite decode_two by (tests; lia).
    rewrite IH by (auto; lia). reflexivity. }
  destruct (isHighSurrogate c) eqn:Eh.
  { destruct s as [|d s]; [discriminate|].
    destruct (isLowSurrogate d) eqn:El; [|discriminate].
    cbn [andb] in Hs.
    rewrite decode_four by (tests; lia).
    rewrite IH by (cbn [length] in Hn; auto; lia). reflexivity. }
  destruct (isLowSurrogate c) eqn:El; [discriminate|].
  cbn [negb andb] in Hs. destruct (c <? 0x10000) eqn:E3; [|discriminate].
  cbn [andb] in Hs.
  assert (Hns : ~ (0xD800 <= c <= 0xDFFF)) by (tests; lia).
  rewrite decode_three by (tests; auto; lia).
  rewrite IH by (auto; lia). reflexivity.
Qed.

(** Encoding never shrinks a text and at most triples it. *)
Lemma utf8_encode_length_upto (n : nat) (s : jsstring) :
  (length s <= n)%nat ->
  (length s <= length (utf8_encode s) <= 3 * length s)%nat.
Proof.
  revert s. induction n as [|n IH]; intros [|c s] Hn; cbn [length] in Hn;
    try (cbn; lia).
  cbn [utf8_encode]. unfold REPLACEMENT.
  destruct (c <? 0x80); [cbn [length]; specialize (IH s); lia|].
  destruct (c <? 0x800);
    [rewrite length_app; cbn [length]; specialize (IH s); lia|].
  destruct (isHighSurrogate c).
  - destruct s as [|d s]; [cbn [length]; lia|].
    destruct (isLowSurrogate d); rewrite length_app; cbn [length] in *.
    + specialize (IH s). lia.
    + specialize (IH (d :: s)). cbn [length] in IH. lia.
  - destruct (isLowSurrogate c); rewrite length_app; cbn [length];
      specialize (IH s); lia.
Qed.

End Utf8.

(* ===================================================================== *)
(** ** Requests in the concrete runtime *)
(* ===================================================================== *)

Section PlainRequests.

Lemma plain_rawText (event : APIGatewayProxyEvent) (b : jsstring) :
  isBase64Encoded event = false -> body event = Some b ->
  wellFormed b = true ->
  rawTextOf event = b.
Proof.
  intros E64 Eb Hb. unfold rawTextOf.
  rewrite (fileBuffer_utf8 event b Eb E64).
  now apply (utf8_round_trip_upto (length b)).
Qed.

Lemma plain_size_range (event : APIGatewayProxyEvent) (b : jsstring) :
  isBase64Encoded event = false -> body event = Some b ->
  (jslength b <= jslength (fileBufferOf event) <= 3 * jslength b)%Z.
Proof.
  intros E64 Eb. unfold jslength. rewrite (fileBuffer_utf8 event b Eb E64).
  assert (Hl := utf8_encode_length_upto (length b) b (le_n _)). lia.
Qed.

(** X16: A body that is sent as text and has no lone surrogate is analysed as it
    was sent: decoding the buffer gives the body back. *)
Theorem plain_body_round_trip (event : APIGatewayProxyEvent) (b : jsstring) :
  isBase64Encoded event = false -> body event = Some b ->
  wellFormed b = true ->
  rawTextOf event = b.
Proof. apply plain_rawText. Qed.

(** X17: The size that is checked is the UTF-8 size of the body: at least its
    length and at most three times its length, so a text body of at most
    349,525 code units passes the size check and one of more than
    1,048,576 code units fails it. *)
Theorem plain_body_size_bounds (event : APIGatewayProxyEvent) (b : jsstring) :
  isBase64Encoded event = false -> body event = Some b ->
  let size := jslength (fileBufferOf event) in
  (jslength b <= size <= 3 * jslength b)%Z
  /\ ((jslength b <= 349525)%Z -> violated PayloadTooLarge event = false)
  /\ ((1048576 < jslength b)%Z -> violated PayloadTooLarge event = true).
Proof.
  intros E64 Eb size.
  assert (Hsize : (jslength b <= size <= 3 * jslength b)%Z)
    by now apply plain_size_range.
  split; [exact Hsize|]. cbn [violated]. fold size.
  unfold MAX_FILE_SIZE_BYTES. split; intros Hb.
  - apply Z.ltb_ge. lia.
  - apply Z.ltb_lt. lia.
Qed.

(** X18: A body sent as text is never reported as an empty file: that message
    needs a base64 body. *)
Theorem plain_body_never_empty (event : APIGatewayProxyEvent)
    (context : Context) (w : World) :
  isBase64Encoded event = false ->
  fst (handler event context w)
  <> inr (mkResult 400 (messageOnly (lit "Uploaded file is empty."))).
Proof.
  intros E64.
  destruct (firstViolation event) as [c|] eqn:Hf.
  - rewrite (handler_firstViolation event context w c Hf), respond_run.
    cbn [fst]. intros [= E].
    assert (Hc : c <> EmptyPayload).
    { intros ->. revert Hf. unfold firstViolation. cbn [find checksInOrder].
      destruct (violated MissingPayload event) eqn:V1; [discriminate|].
      destruct (violated WrongContentType event); [discriminate|].
      destruct (violated EmptyPayload event) eqn:V3.
      2:{ destruct (violated PayloadTooLarge event); [discriminate|].
          destruct (violated WhitespaceOnly event); [discriminate|].
          destruct (violated NoContent event); discriminate. }
      exfalso. cbn [violated] in V1, V3.
      destruct (body event) as [[|d b]|] eqn:Eb; try discriminate.
      rewrite (fileBuffer_utf8 event (d :: b) Eb E64) in V3.
      assert (Hl := utf8_encode_length_upto _ (d :: b) (le_n _)).
      apply Z.eqb_eq in V3. unfold jslength in V3. cbn [length] in Hl. lia. }
    revert E. change (lit "Uploaded file is empty.")
      with (messageOf EmptyPayload event).
    now apply messageOf_distinct.
  - destruct (putFailure w) as [e|] eqn:Hput.
    + rewrite (handler_valid_failed event context w e Hf Hput). discriminate.
    + rewrite (handler_valid_stored event context w Hf Hput). discriminate.
Qed.

Lemma startsWith_app (p s : jsstring) : startsWith p (p ++ s) = true.
Proof.
  induction p as [|a p IH]; [reflexivity|].
  cbn [app startsWith]. now rewrite N.eqb_refl.
Qed.

Lemma includes_app (p a b : jsstring) : includes p (a ++ p ++ b) = true.
Proof.
  induction a as [|c a IH].
  - cbn [app]. destruct (p ++ b) eqn:E; cbn [includes]; rewrite <- E;
      now rewrite startsWith_app.
  - cbn [app includes]. rewrite IH. apply orb_true_r.
Qed.

(** X12: The content type is matched as a substring and without regard to the
    case of ASCII letters: a declared type that has text/plain in any case
    anywhere in it, as before a charset parameter, is accepted. *)
Theorem content_type_any_case (event : APIGatewayProxyEvent)
    (before matched after : jsstring) :
  contentTypeOf event = Some (before ++ matched ++ after) ->
  Node.ascii_toLowerCase matched = lit "text/plain" ->
  violated WrongContentType event = false.
Proof.
  intros Ect Hm. cbn [violated]. rewrite Ect.
  assert (Ht : truthy (Some (before ++ matched ++ after)) = true).
  { destruct matched as [|c m]; [discriminate|]. now destruct before. }
  rewrite Ht. cbn [default andb id from_option toLowerCase node].
  unfold Node.ascii_toLowerCase in *. rewrite !List.map_app, Hm.
  now rewrite includes_app.
Qed.

End PlainRequests.

(* ===================================================================== *)
(** ** The further properties on the sample requests *)
(* ===================================================================== *)

Lemma handler_store_error_witness :
  fst (handler MoreSamples.helloText Samples.context0 MoreSamples.rejecting)
  = inr (mkResult 500
           [("message"%string, VStr (lit "Error processing text"));
            ("error"%string, VStr (lit "Requested resource not found"));
            ("requestId"%string, VStr (lit "req-1"))])
  /\ table (snd (handler MoreSamples.helloText Samples.context0
                   MoreSamples.rejecting)) = ∅.
Proof.
  assert (Hf : firstViolation MoreSamples.helloText = None)
    by (vm_compute; reflexivity).
  exact (handler_store_error MoreSamples.helloText Samples.context0
           MoreSamples.rejecting (lit "Requested resource not found")
           Hf eq_refl).
Defined.

Lemma handler_success_counts_witness :
  fst (handler MoreSamples.helloText Samples.context0 Samples.world0)
  = inr (mkResult 200 (successBody (lit "1700000000000") 3 2))
  /\ (1 <= lineCount (analyzeText (rawTextOf MoreSamples.helloText))
       <= wordCount (analyzeText (rawTextOf MoreSamples.helloText)))%Z.
Proof.
  assert (Hr : fst (handler MoreSamples.helloText Samples.context0
                      Samples.world0)
               = inr (mkResult 200 (successBody (lit "1700000000000") 3 2)))
    by (vm_compute; reflexivity).
  split; [exact Hr|].
  exact (proj2 (handler_success_counts MoreSamples.helloText
                  Samples.context0 Samples.world0 _ Hr eq_refl)).
Defined.

Lemma handler_content_type_missing_witness :
  fst (handler MoreSamples.capitalHeader Samples.context0 Samples.world0)
  = inr (mkResult 400
           (messageOnly
              (lit "Invalid file type. Only text/plain (.txt) files are allowed.")))
  /\ table (snd (handler MoreSamples.capitalHeader Samples.context0
                   Samples.world0)) = table Samples.world0.
Proof.
  apply (handler_content_type_missing MoreSamples.capitalHeader
           Samples.context0 Samples.world0);
    vm_compute; reflexivity.
Defined.

Lemma handler_content_type_precedence_witness :
  fst (handler MoreSamples.twoTypes Samples.context0 Samples.world0)
  = inr (mkResult 400
           (messageOnly
              (lit "Invalid file type. Only text/plain (.txt) files are allowed.")))
  /\ table (snd (handler MoreSamples.twoTypes Samples.context0
                   Samples.world0)) = table Samples.world0.
Proof.
  apply (handler_content_type_precedence MoreSamples.twoTypes
           Samples.context0 Samples.world0 (lit "application/json"));
    [reflexivity | vm_compute; reflexivity | discriminate
    | vm_compute; reflexivity].
Defined.

Lemma sizeMessage_tells_size_witness :
  sizeMessage 1048577 <> sizeMessage 1048578.
Proof. apply sizeMessage_tells_size. discriminate. Defined.

Lemma handler_same_millisecond_overwrites_witness :
  let w1 := snd (handler MoreSamples.helloText Samples.context0
                   MoreSamples.sameMillisecond) in
  let w2 := snd (handler Samples.longText Samples.context0 w1) in
  table w2
  = <[lit "1700000000000" := storedItem Samples.longText w1]> ∅.
Proof.
  assert (Hf1 : firstViolation MoreSamples.helloText = None)
    by (vm_compute; reflexivity).
  assert (Hf2 : firstViolation Samples.longText = None)
    by (vm_compute; reflexivity).
  destruct (handler_same_millisecond_overwrites MoreSamples.helloText
              Samples.longText Samples.context0 Samples.context0
              MoreSamples.sameMillisecond Hf1 Hf2 eq_refl)
    as (_ & _ & Hsame & _).
  exact (Hsame eq_refl).
Defined.

Lemma stored_text_bounded_witness :
  exists item,
    table (snd (handler MoreSamples.helloText Samples.context0
                  Samples.world0)) !! lit "1700000000000" = Some item
    /\ (jslength (Item.textContent item) <= 1003)%Z
    /\ Item.textContent item
       = lit "hello world" ++ [LF; LF] ++ lit "foo".
Proof.
  assert (Hf : firstViolation MoreSamples.helloText = None)
    by (vm_compute; reflexivity).
  destruct (stored_text_bounded MoreSamples.helloText Samples.context0
              Samples.world0 Hf eq_refl) as (item & Hl & Hb & Hs & _).
  exists item. split; [exact Hl|]. split; [exact Hb|].
  rewrite Hs; vm_compute; [reflexivity | discriminate].
Defined.

Lemma plain_body_round_trip_witness :
  rawTextOf MoreSamples.accented
  = [104; 233; 32; 8364; 32; 0xD83D; 0xDE00].
Proof.
  apply (plain_body_round_trip MoreSamples.accented); reflexivity.
Defined.

Lemma plain_body_size_bounds_witness :
  (7 <= jslength (fileBufferOf MoreSamples.accented) <= 21)%Z.
Proof.
  exact (proj1 (plain_body_size_bounds MoreSamples.accented
                  [104; 233; 32; 8364; 32; 0xD83D; 0xDE00]
                  eq_refl eq_refl)).
Defined.

Lemma plain_body_never_empty_witness :
  fst (handler MoreSamples.accented Samples.context0 Samples.world0)
  <> inr (mkResult 400 (messageOnly (lit "Uploaded file is empty."))).
Proof.
  apply (plain_body_never_empty MoreSamples.accented). reflexivity.
Defined.

Lemma content_type_any_case_witness :
  violated WrongContentType MoreSamples.mixedCase = false.
Proof.
  apply (content_type_any_case MoreSamples.mixedCase []
           (lit "Text/PLAIN") (lit "; charset=utf-8"));
    vm_compute; reflexivity.
Defined.

(* ===================================================================== *)
(** ** Text requests from end to end *)
(* ===================================================================== *)

(** X5: The words of two texts with white space between them are the words of
    the one and the words of the other. *)
Theorem wordCount_additive (a : jsstring) (c : N) (b : jsstring) :
  isWhiteSpace c = true ->
  wordCount (analyzeText (a ++ c :: b))
  = (wordCount (analyzeText a) + wordCount (analyzeText b))%Z.
Proof.
  intros Hc. cbn [analyzeText wordCount].
  rewrite !countWords_wordStarts, !wordStarts_normalize.
  rewrite (wordStarts_app true a c b Hc). lia.
Qed.

Lemma wordCount_additive_witness :
  wordCount (analyzeText (lit "one two" ++ TAB :: lit "three")) = 3%Z.
Proof.
  rewrite (wordCount_additive (lit "one two") TAB (lit "three") eq_refl).
  reflexivity.
Defined.

Lemma whitespace_wellFormed (b : jsstring) :
  forallb isWhiteSpace b = true -> wellFormed b = true.
Proof.
  induction b as [|c b IH]; [reflexivity|].
  cbn [forallb wellFormed]. intros Hb.
  apply andb_true_iff in Hb. destruct Hb as [Hc Hb].
  assert (Hr : c < 0xD800 \/ c = 0xFEFF).
  { unfold isWhiteSpace in Hc.
    repeat match type of Hc with
      | _ || _ = true => apply orb_true_iff in Hc; destruct Hc as [Hc|Hc]
      end;
      try (apply N.eqb_eq in Hc; subst c; (now left) || (now right)).
    apply andb_true_iff in Hc. destruct Hc as [_ Hc].
    apply N.leb_le in Hc. left. lia. }
  unfold Node.isHighSurrogate, Node.isLowSurrogate.
  destruct (N.leb_spec 0xD800 c) as [Hge|_];
    [destruct (N.leb_spec c 0xDBFF) as [Hle|_]; [lia|]|]; cbn [andb];
    (destruct (N.leb_spec 0xDC00 c) as [Hge'|_];
     [destruct (N.leb_spec c 0xDFFF) as [Hle|_]; [lia|]|]); cbn [andb negb];
    (destruct (N.ltb_spec c 0x10000) as [_|Hge'']; [|lia]); now apply IH.
Qed.

Section EndToEnd.
Variables (event : APIGatewayProxyEvent) (context : Context) (w : World).
Variable b : jsstring.
Hypothesis sent_as_text : isBase64Encoded event = false.
Hypothesis sent_body : body event = Some b.
Hypothesis declared_plain : violated WrongContentType event = false.
Hypothesis small : (jslength b <= 349525)%Z.

Lemma text_request_passes_to_text (c : Check) :
  b <> [] -> rawTextOf event = b ->
  In c [MissingPayload; WrongContentType; EmptyPayload; PayloadTooLarge] ->
  violated c event = false.
Proof.
  intros Hne Hraw Hin.
  assert (Hs := plain_size_range event b sent_as_text sent_body).
  assert (Hlen : (0 < jslength b)%Z).
  { unfold jslength. destruct b; [contradiction|]. cbn [length]. lia. }
  cbn [In] in Hin. destruct Hin as [<-|[<-|[<-|[<-|[]]]]].
  - cbn [violated]. rewrite sent_body. now destruct b.
  - exact declared_plain.
  - cbn [violated]. apply Z.eqb_neq. lia.
  - cbn [violated]. unfold MAX_FILE_SIZE_BYTES. apply Z.ltb_ge. lia.
Qed.

(** X19: A body sent as text with nothing but white space in it is refused with
    the white-space message. *)
Theorem whitespace_body_refused :
  b <> [] -> forallb isWhiteSpace b = true ->
  fst (handler event context w)
  = inr (mkResult 400
           (messageOnly
              (lit "Uploaded file contains no meaningful text (only whitespace).")))
  /\ table (snd (handler event context w)) = table w.
Proof.
  intros Hne Hws.
  assert (Hraw : rawTextOf event = b).
  { apply plain_rawText; auto using whitespace_wellFormed. }
  assert (Hf : firstViolation event = Some WhitespaceOnly).
  { apply (find_first _
             [MissingPayload; WrongContentType; EmptyPayload; PayloadTooLarge]).
    - apply List.Forall_forall. intros c Hc.
      now apply text_request_passes_to_text.
    - cbn [violated]. now rewrite Hraw. }
  rewrite (handler_firstViolation event context w _ Hf), respond_run.
  split; reflexivity.
Qed.

(** X20: A body sent as text, well formed, with some text in it and small enough
    is stored, and the response is HTTP 200 with the counts of the body as
    it was sent. *)
Theorem text_request_succeeds :
  wellFormed b = true -> hasText b = true -> putFailure w = None ->
  fst (handler event context w)
  = inr (mkResult 200
           (successBody (toString (reading 0 w)) (wordCount (analyzeText b))
              (lineCount (analyzeText b))))
  /\ table (snd (handler event context w)) !! toString (reading 0 w)
     = Some (Item.mk (toString (reading 0 w))
               (textContentOf (normalizedText (analyzeText b)))
               (wordCount (analyzeText b)) (lineCount (analyzeText b))
               (reading 1 w)).
Proof.
  intros Hwf Htext Hput.
  assert (Hraw : rawTextOf event = b) by now apply plain_rawText.
  assert (Hne : b <> []) by (intros ->; discriminate).
  assert (Hws : violated WhitespaceOnly event = false).
  { cbn [violated]. rewrite Hraw. rewrite hasText_forallb in Htext.
    now apply negb_true_iff in Htext. }
  assert (Hf : firstViolation event = None).
  { unfold firstViolation. cbn [find checksInOrder].
    rewrite !(text_request_passes_to_text _ Hne Hraw) by (cbn [In]; tauto).
    now rewrite Hws, (no_content_unreachable event Hws). }
  rewrite (handler_valid_stored event context w Hf Hput).
  unfold storedItem. rewrite Hraw. cbn [fst snd table Item.id Item.wordCount
    Item.lineCount].
  split; [reflexivity | apply lookup_insert_eq].
Qed.

End EndToEnd.

Lemma whitespace_body_refused_witness :
  fst (handler (mkEvent (Some [SPACE; TAB; 0xFEFF; LF]) Samples.textPlain false)
         Samples.context0 Samples.world0)
  = inr (mkResult 400
           (messageOnly
              (lit "Uploaded file contains no meaningful text (only whitespace).")))
  /\ table (snd (handler
                   (mkEvent (Some [SPACE; TAB; 0xFEFF; LF]) Samples.textPlain
                      false)
                   Samples.context0 Samples.world0)) = ∅.
Proof.
  apply (whitespace_body_refused
           (mkEvent (Some [SPACE; TAB; 0xFEFF; LF]) Samples.textPlain false)
           Samples.context0 Samples.world0 [SPACE; TAB; 0xFEFF; LF]);
    try reflexivity; discriminate.
Defined.

Lemma text_request_succeeds_witness :
  fst (handler MoreSamples.accented Samples.context0 Samples.world0)
  = inr (mkResult 200 (successBody (lit "1700000000000") 3 1)).
Proof.
  apply (text_request_succeeds MoreSamples.accented Samples.context0
           Samples.world0 [104; 233; 32; 8364; 32; 0xD83D; 0xDE00]);
    try reflexivity; discriminate.
Defined.
